(** * A shallow embedding of the GNSS-SDR RINEX printer
    (src/algorithms/PVT/libs/rinex_printer.cc).

    Conventions of the embedding:
    - a C++ [std::string] is a Rocq [string]; [line += s] is [line ++ s];
    - an output stream ([std::ofstream]) receives whole lines; a writer returns
      the list of lines it appends (each followed by [std::endl]);
    - a C++ [int] is a [Z]; its 32-bit wrap-around is written out where the
      arithmetic can leave the range;
    - a C++ [double] is a [Q] (its exact value); the text renderings of doubles
      that live in [rinex_printer.h] (not part of the sources at hand) are
      parameters of the writers: [doub2for], [asString], [lexical_cast] on a
      double, [asFixWidthString], and the ISO rendering of [compute_GPS_time];
    - [std::map<int, T>] is iterated in increasing key order; it is an
      association list whose keys are increasing. *)

From Stdlib Require Import ZArith QArith Qround String Ascii List Lia Bool.
From Stdlib Require Import Numbers.DecimalString Numbers.DecimalZ.
Import ListNotations.

Local Open Scope string_scope.
Local Open Scope Z_scope.

(** ** Text helpers *)

(** [std::string(n, c)] for a small [n] *)
Fixpoint rep (n : nat) (c : ascii) : string :=
  match n with
  | O => EmptyString
  | S k => String c (rep k c)
  end.

Definition spaces (n : nat) : string := rep n " "%char.

(** [boost::lexical_cast<std::string>] of an [int]: its decimal rendering *)
Definition int_to_string (z : Z) : string :=
  NilEmpty.string_of_int (Z.to_int z).

(** Modelled from the spec: [Rinex_Printer::leftJustify] (declared in
    rinex_printer.h, not among the sources). Section 4.1: pads with spaces up
    to the width and never truncates; a text longer than the width is returned
    unchanged. *)
Definition leftJustify (s : string) (w : nat) : string :=
  if Nat.ltb (String.length s) w then s ++ spaces (w - String.length s) else s.

(** Modelled from the spec: [Rinex_Printer::rightJustify] (declared in
    rinex_printer.h). Same contract as [leftJustify], padding on the left with
    the pad character (a space by default). *)
Definition rightJustifyc (s : string) (w : nat) (pad : ascii) : string :=
  if Nat.ltb (String.length s) w then rep (w - String.length s) pad ++ s else s.

Definition rightJustify (s : string) (w : nat) : string := rightJustifyc s w " "%char.

(** [std::string(s, pos, n)]: substring constructor *)
Definition substr (s : string) (pos n : nat) : string := String.substring pos n s.

(** [std::map<K, std::string>::operator[]] read: the value, or the empty
    string that [operator[]] default-inserts for an absent key.  The list holds
    the assignments in program order; the last assignment of a key wins. *)
Fixpoint assoc_find (m : list (string * string)) (k : string) : option string :=
  match m with
  | [] => None
  | (k', v) :: m' => if String.eqb k k' then Some v else assoc_find m' k
  end.

Definition map_get (m : list (string * string)) (k : string) : string :=
  match assoc_find (rev m) k with Some v => v | None => "" end.

Fixpoint map_getZ (m : list (Z * string)) (k : Z) : string :=
  match m with
  | [] => ""
  | (k', v) :: m' => if Z.eqb k k' then v else map_getZ m' k
  end.

(** ** Files and streams *)

(** A file system: the files that exist with their sizes in bytes. *)
Definition filesys := list (string * nat).

Fixpoint fs_lookup (fs : filesys) (n : string) : option nat :=
  match fs with
  | [] => None
  | (n', sz) :: fs' => if String.eqb n n' then Some sz else fs_lookup fs' n
  end.

(** [open(name, std::ios::out | std::ios::app)] creates a missing file *)
Definition fs_open_app (fs : filesys) (n : string) : filesys :=
  match fs_lookup fs n with
  | Some _ => fs
  | None => app fs [(n, 0%nat)]
  end.

(** [remove(name)] *)
Definition fs_remove (fs : filesys) (n : string) : filesys :=
  filter (fun p => negb (String.eqb (fst p) n)) fs.

(** The size of a file, 0 for a missing one *)
Definition fs_size (fs : filesys) (n : string) : nat :=
  match fs_lookup fs n with Some k => k | None => 0%nat end.

(** An open [std::ofstream] opened in append mode; [of_pos] is what
    [tellp()] returns: the put position, which the append-mode open (glibc's
    [fopen] with mode "a") sets to the end of the file, and which each write
    advances by the bytes written. *)
Record ofstream := mk_ofstream { of_name : string; of_pos : nat }.

Fixpoint bytes_of_lines (ls : list string) : nat :=
  match ls with
  | [] => 0%nat
  | l :: ls' => (String.length l + 1 + bytes_of_lines ls')%nat
  end.

Fixpoint fs_grow (fs : filesys) (n : string) (k : nat) : filesys :=
  match fs with
  | [] => []
  | (n', sz) :: fs' => if String.eqb n n' then (n', (sz + k)%nat) :: fs'
                       else (n', sz) :: fs_grow fs' n k
  end.

(** [out << line << std::endl] for each line, on the stream and its file *)
Definition write_lines (fs : filesys) (o : ofstream) (ls : list string)
  : filesys * ofstream :=
  (fs_grow fs (of_name o) (bytes_of_lines ls),
   mk_ofstream (of_name o) (of_pos o + bytes_of_lines ls)).

(** ** The printer object and its constructor *)

Record Rinex_Printer := mk_printer {
  navfilename : string;
  obsfilename : string;
  sbsfilename : string;
  navFile : ofstream;
  obsFile : ofstream;
  sbsFile : ofstream;
  satelliteSystem : list (string * string);
  observationCode : list (string * string);
  observationType : list (string * string);
  (** [int version]: [None] when the constructor leaves it unassigned (an
      unknown version string). Its value is then indeterminate in C++: no
      theorem of this file describes the writers of such a printer. *)
  version : option Z;
  stringVersion : string;
  numberTypesObservations : Z
}.

Definition satelliteSystem_table : list (string * string) :=
  [("GPS", "G"); ("GLONASS", "R"); ("SBAS payload", "S");
   ("Galileo", "E"); ("Compass", "C")].

Definition observationCode_table : list (string * string) :=
  [("GPS_L1_CA", "1C"); ("GPS_L1_P", "1P"); ("GPS_L1_Z_TRACKING", "1W");
   ("GPS_L1_Y", "1Y"); ("GPS_L1_M ", "1M"); ("GPS_L1_CODELESS", "1N");
   ("GPS_L2_CA", "2C"); ("L2_SEMI_CODELESS", "2D"); ("GPS_L2_L2CM", "2S");
   ("GPS_L2_L2CL", "2L"); ("GPS_L2_L2CML", "2X"); ("GPS_L2_P", "2P");
   ("GPS_L2_Z_TRACKING", "2W"); ("GPS_L2_Y", "2Y"); ("GPS_L2_M", "2M");
   ("GPS_L2_codeless", "2N"); ("GPS_L5_I", "5I"); ("GPS_L5_Q", "5Q");
   ("GPS_L5_IQ", "5X"); ("GLONASS_G1_CA", "1C"); ("GLONASS_G1_P", "1P");
   ("GLONASS_G2_CA", "2C"); ("GLONASS_G2_P", "2P"); ("GALILEO_E1_A", "1A");
   ("GALILEO_E1_B", "1B"); ("GALILEO_E1_C", "1C"); ("GALILEO_E1_BC", "1X");
   ("GALILEO_E1_ABC", "1Z"); ("GALILEO_E5a_I", "5I"); ("GALILEO_E5a_Q", "5Q");
   ("GALILEO_E5aIQ", "5X"); ("GALILEO_E5b_I", "7I"); ("GALILEO_E5b_Q", "7Q");
   ("GALILEO_E5b_IQ", "7X"); ("GALILEO_E5_I", "8I"); ("GALILEO_E5_Q", "8Q");
   ("GALILEO_E5_IQ", "8X"); ("GALILEO_E56_A", "6A"); ("GALILEO_E56_B", "6B");
   ("GALILEO_E56_B", "6C"); ("GALILEO_E56_BC", "6X"); ("GALILEO_E56_ABC", "6Z");
   ("SBAS_L1_CA", "1C"); ("SBAS_L5_I", "5I"); ("SBAS_L5_Q", "5Q");
   ("SBAS_L5_IQ", "5X"); ("COMPASS_E2_I", "2I"); ("COMPASS_E2_Q", "2Q");
   ("COMPASS_E2_IQ", "2X"); ("COMPASS_E5b_I", "7I"); ("COMPASS_E5b_Q", "7Q");
   ("COMPASS_E5b_IQ", "7X"); ("COMPASS_E6_I", "6I"); ("COMPASS_E6_Q", "6Q");
   ("COMPASS_E6_IQ", "6X"); ("GPS_L1_CA_v2", "1")].

Definition observationType_table : list (string * string) :=
  [("PSEUDORANGE", "C"); ("CARRIER_PHASE", "L"); ("DOPPLER", "D");
   ("SIGNAL_STRENGTH", "S"); ("PSEUDORANGE_CA_v2", "C"); ("PSEUDORANGE_P_v2", "P");
   ("CARRIER_PHASE_CA_v2", "L"); ("DOPPLER_v2", "D"); ("SIGNAL_STRENGTH_v2", "S")].

(** The [fileType] map of [createFilename], in insertion order *)
Definition fileType_table : list (string * string) :=
  [("RINEX_FILE_TYPE_OBS", "O"); ("RINEX_FILE_TYPE_GPS_NAV", "N");
   ("RINEX_FILE_TYPE_MET", "M"); ("RINEX_FILE_TYPE_GLO_NAV", "G");
   ("RINEX_FILE_TYPE_GAL_NAV", "L"); ("RINEX_FILE_TYPE_MIXED_NAV", "P");
   ("RINEX_FILE_TYPE_GEO_NAV", "H"); ("RINEX_FILE_TYPE_SBAS", "B");
   ("RINEX_FILE_TYPE_CLK", "C"); ("RINEX_FILE_TYPE_SUMMARY", "S")].

(** The [Hmap] map of [createFilename]: the hour letter *)
Definition Hmap_table : list (string * string) :=
  [("0", "a"); ("1", "b"); ("2", "c"); ("3", "d"); ("4", "e"); ("5", "f");
   ("6", "g"); ("7", "h"); ("8", "i"); ("9", "j"); ("10", "k"); ("11", "l");
   ("12", "m"); ("13", "n"); ("14", "o"); ("15", "p"); ("16", "q"); ("17", "r");
   ("18", "s"); ("19", "t"); ("20", "u"); ("21", "v"); ("22", "w"); ("23", "x")].

(** [Rinex_Printer::createFilename(type)]. The clock readings are arguments:
    [day_of_year] is [day_clock::local_day().day_of_year()], and
    [local_hour], [local_minute] and [tm_year] are the fields [tm_hour],
    [tm_min] and [tm_year] of [to_tm(second_clock::local_time())].
    [Hmap[...]] and [fileType[type]] are [std::map::operator[]]: the empty
    string for a missing key. *)
Definition createFilename (day_of_year local_hour local_minute tm_year : Z)
  (type : string) : string :=
  let stationName := "GSDR" in
  let dayOfTheYearTag :=
    (if day_of_year <? 100 then "0" else "") ++ (if day_of_year <? 10 then "0" else "")
    ++ int_to_string day_of_year in
  let hourTag := map_get Hmap_table (int_to_string local_hour) in
  let minTag := (if local_minute <? 10 then "0" else "") ++ int_to_string local_minute in
  let local_year := tm_year - 100 in
  let yearTag := int_to_string local_year in
  let typeOfFile := map_get fileType_table type in
  stationName ++ dayOfTheYearTag ++ hourTag ++ minTag ++ "." ++ yearTag ++ typeOfFile.

(** [Rinex_Printer::Rinex_Printer()]. The three file names are the values of
    [createFilename] at construction time (they depend on the wall clock);
    [flag] is [FLAGS_RINEX_version]. Returns the object, the file system after
    the three [open] calls, and the lines logged. Each stream starts at the
    size its file has when it is opened (0 for a file the open creates). *)
Definition Rinex_Printer_ctor (fs : filesys) (navn obsn sbsn flag : string)
  : Rinex_Printer * filesys * list string :=
  let fs1 := fs_open_app (fs_open_app (fs_open_app fs navn) obsn) sbsn in
  let '(ver, sver, log) :=
    if String.eqb flag "3.01" then (Some 3, "3.01", [])
    else if String.eqb flag "2.11" then (Some 2, "2.10", [])
    else if String.eqb flag "2.10" then (Some 2, "2.10", [])
    else (None, "", ["Unknown RINEX version " ++ flag ++ " (must be 2.11 or 3.01)"])
  in
  (mk_printer navn obsn sbsn
     (mk_ofstream navn (fs_size fs navn))
     (mk_ofstream obsn (fs_size (fs_open_app fs navn) obsn))
     (mk_ofstream sbsn (fs_size (fs_open_app (fs_open_app fs navn) obsn) sbsn))
     satelliteSystem_table observationCode_table observationType_table
     ver sver 2, fs1, log).

(** [Rinex_Printer::~Rinex_Printer()]: the file system after destruction. *)
Definition Rinex_Printer_dtor (p : Rinex_Printer) (fs : filesys) : filesys :=
  let posn := of_pos (navFile p) in
  let poso := of_pos (obsFile p) in
  let poss := of_pos (obsFile p) in
  let fs1 := if Nat.eqb posn 0 then fs_remove fs (navfilename p) else fs in
  let fs2 := if Nat.eqb poso 0 then fs_remove fs1 (obsfilename p) else fs1 in
  if Nat.eqb poss 0 then fs_remove fs2 (sbsfilename p) else fs2.

(** Writing lines through one of the three streams of the printer *)
Inductive which_stream := NavS | ObsS | SbsS.

Definition printer_write (p : Rinex_Printer) (fs : filesys) (w : which_stream)
  (ls : list string) : Rinex_Printer * filesys :=
  match w with
  | NavS => let '(fs', o) := write_lines fs (navFile p) ls in
            (mk_printer (navfilename p) (obsfilename p) (sbsfilename p) o (obsFile p)
               (sbsFile p) (satelliteSystem p) (observationCode p) (observationType p)
               (version p) (stringVersion p) (numberTypesObservations p), fs')
  | ObsS => let '(fs', o) := write_lines fs (obsFile p) ls in
            (mk_printer (navfilename p) (obsfilename p) (sbsfilename p) (navFile p) o
               (sbsFile p) (satelliteSystem p) (observationCode p) (observationType p)
               (version p) (stringVersion p) (numberTypesObservations p), fs')
  | SbsS => let '(fs', o) := write_lines fs (sbsFile p) ls in
            (mk_printer (navfilename p) (obsfilename p) (sbsfilename p) (navFile p)
               (obsFile p) o (satelliteSystem p) (observationCode p) (observationType p)
               (version p) (stringVersion p) (numberTypesObservations p), fs')
  end.

(** ** Time system: [Rinex_Printer::to_date_time] *)

(** two's complement wrap-around of a 32-bit [int] *)
Definition wrap32 (z : Z) : Z := ((z + 2 ^ 31) mod 2 ^ 32) - 2 ^ 31.

Definition secs_per_day : Z := 24 * 60 * 60.
Definition secs_per_week : Z := 7 * secs_per_day.
Definition secs_per_normal_year : Z := 365 * secs_per_day.
Definition secs_per_leap_year : Z := secs_per_normal_year + secs_per_day.

Definition days_per_month : list Z := [31; 28; 31; 30; 31; 30; 31; 31; 30; 31; 30; 31].

Definition is_leap (y : Z) : bool :=
  (y mod 4 =? 0) && (negb (y mod 100 =? 0) || (y mod 400 =? 0)).

(** The year loop [for (int y = 1980; true; y++)]: returns the year, the
    remaining seconds and [is_leap_year]. Each iteration removes at least a
    normal year, so [remaining / secs_per_normal_year + 1] iterations suffice;
    [fuel] is that bound. *)
Fixpoint year_loop (fuel : nat) (y rem : Z) : Z * Z * bool :=
  let leap := is_leap y in
  let secs_in_year_y := if leap then secs_per_leap_year else secs_per_normal_year in
  match fuel with
  | O => (y, rem, leap)
  | S f => if secs_in_year_y <=? rem then year_loop f (y + 1) (rem - secs_in_year_y)
           else (y, rem, leap)
  end.

(** The month loop [for (int m = 1; true; m++)] *)
Fixpoint month_loop (fuel : nat) (leap : bool) (m rem : Z) : Z * Z :=
  let secs_in_month_m :=
    nth (Z.to_nat (m - 1)) days_per_month 0 * secs_per_day
    + (if leap && (m =? 2) then secs_per_day else 0) in
  match fuel with
  | O => (m, rem)
  | S f => if secs_in_month_m <=? rem then month_loop f leap (m + 1) (rem - secs_in_month_m)
           else (m, rem)
  end.

Record date_time := mk_dt {
  dt_year : Z; dt_month : Z; dt_day : Z; dt_hour : Z; dt_minute : Z; dt_second : Z }.

(** [Rinex_Printer::to_date_time(int gps_week, int gps_tow, ...)]; [int]
    arithmetic wraps at 32 bits, C++ [/] and [%] truncate toward zero. *)
Definition to_date_time (gps_week gps_tow : Z) : date_time :=
  let secs_since_gps_epoch := wrap32 (wrap32 (gps_week * secs_per_week) + gps_tow) in
  let remaining_secs := wrap32 (secs_since_gps_epoch + 5 * secs_per_day) in
  let '(year, rem1, leap) :=
    year_loop (Z.to_nat (remaining_secs / secs_per_normal_year + 1)) 1980 remaining_secs in
  let '(month, rem2) := month_loop 12 leap 1 rem1 in
  let day := Z.quot rem2 secs_per_day + 1 in
  let rem3 := Z.rem rem2 secs_per_day in
  let hour := Z.quot rem3 3600 in
  let rem4 := Z.rem rem3 3600 in
  mk_dt year month day hour (Z.quot rem4 60) (Z.rem rem4 60).

(** An independent reference calendar: the proleptic Gregorian date of a day
    count relative to 1970-01-01 (the "civil from days" algorithm). *)
Definition civil_from_days (z0 : Z) : Z * Z * Z :=
  let z := z0 + 719468 in
  let era := (if z >=? 0 then z else z - 146096) / 146097 in
  let doe := z - era * 146097 in
  let yoe := (doe - doe / 1460 + doe / 36524 - doe / 146096) / 365 in
  let y := yoe + era * 400 in
  let doy := doe - (365 * yoe + yoe / 4 - yoe / 100) in
  let mp := (5 * doy + 2) / 153 in
  let d := doy - (153 * mp + 2) / 5 + 1 in
  let m := if mp <? 10 then mp + 3 else mp - 9 in
  (if m <=? 2 then y + 1 else y, m, d).

(** Day count of 1980-01-06 (the GPS epoch) relative to 1970-01-01 *)
Definition gps_epoch_days : Z := 3657.

(** The calendar date and time [secs] seconds after the GPS epoch, with no
    leap seconds. *)
Definition reference_date_time (secs : Z) : date_time :=
  let '(y, m, d) := civil_from_days (gps_epoch_days + secs / secs_per_day) in
  let r := secs mod secs_per_day in
  mk_dt y m d (r / 3600) ((r mod 3600) / 60) (r mod 60).

(** ** Curve-fit interval (broadcast orbit line 7 of [log_rinex_nav]) *)

(** The ephemeris fields the navigation writer reads *)
Record Gps_Ephemeris := mk_eph {
  i_satellite_PRN : Z;
  d_TOW : Q; d_A_f0 : Q; d_A_f1 : Q; d_A_f2 : Q;
  d_Crs : Q; d_Delta_n : Q; d_M_0 : Q;
  d_Cuc : Q; d_e_eccentricity : Q; d_Cus : Q; d_sqrt_A : Q;
  d_Toe : Q; d_Cic : Q; d_OMEGA0 : Q; d_Cis : Q;
  d_i_0 : Q; d_Crc : Q; d_OMEGA : Q; d_OMEGA_DOT : Q;
  d_IDOT : Q; i_code_on_L2 : Z; i_GPS_week : Z;
  i_SV_accuracy : Z; i_SV_health : Z; d_TGD : Q; d_IODC : Q;
  (** [std::map<int, std::string> satelliteBlock], keyed by PRN *)
  satelliteBlock : list (Z * string)
}.

Definition Qltb (x y : Q) : bool := negb (Qle_bool y x).
Definition Qgtb (x y : Q) : bool := Qltb y x.
Definition Qeqbool (x y : Q) : bool := Qeq_bool x y.

(** [std::string::compare(s) != 0], i.e. the strings differ *)
Definition compare_ne (a b : string) : bool := negb (String.eqb a b).

(** The [curve_fit_interval] computed on broadcast orbit line 7 *)
Definition curve_fit_interval (eph : Gps_Ephemeris) : Q :=
  let blk := map_getZ (satelliteBlock eph) (i_satellite_PRN eph) in
  let iodc := d_IODC eph in
  let c0 := 4%Q in
  let c1 :=
    if compare_ne blk "IIA" then
      (* Block II/IIA (Table 20-XI IS-GPS-200E) *)
      let a := if Qgtb iodc 239 && Qltb iodc 248 then 8%Q else c0 in
      let a := if (Qgtb iodc 247 && Qltb iodc 256) || Qeqbool iodc 496 then 14%Q else a in
      let a := if Qgtb iodc 496 && Qltb iodc 504 then 26%Q else a in
      let a := if Qgtb iodc 503 && Qltb iodc 511 then 50%Q else a in
      let a := if (Qgtb iodc 751 && Qltb iodc 757) || Qeqbool iodc 511 then 74%Q else a in
      if Qeqbool iodc 757 then 98%Q else a
    else c0 in
  if String.eqb blk "IIR" || String.eqb blk "IIR-M" || String.eqb blk "IIF"
     || String.eqb blk "IIIA" then
    (* Block IIR/IIR-M/IIF/IIIA (Table 20-XII IS-GPS-200E) *)
    let a := if Qgtb iodc 239 && Qltb iodc 248 then 8%Q else c1 in
    let a := if (Qgtb iodc 247 && Qltb iodc 256) || Qeqbool iodc 496 then 14%Q else a in
    if (Qgtb iodc 496 && Qltb iodc 504) || (Qgtb iodc 1020 && Qltb iodc 1024) then 26%Q else a
  else c1.

(** ** Signal strength: [Rinex_Printer::signalStrength] *)

(** [int(x)] for a double holding an integral value: defined only when the
    value is representable as an [int]; otherwise the conversion is undefined
    behaviour ([None]). *)
Definition double_to_int (z : Z) : option Z :=
  if (- 2 ^ 31 <=? z) && (z <=? 2 ^ 31 - 1) then Some z else None.

Definition signalStrength (snr : Q) : option Z :=
  match double_to_int (Qfloor (snr / 6)) with
  | Some v => Some (Z.min (Z.max v 1) 9)
  | None => None
  end.

(** ** The document writers *)

Record Gps_Iono := mk_iono {
  d_alpha0 : Q; d_alpha1 : Q; d_alpha2 : Q; d_alpha3 : Q;
  d_beta0 : Q; d_beta1 : Q; d_beta2 : Q; d_beta3 : Q }.

Record Gps_Utc_Model := mk_utc {
  d_A0 : Q; d_A1 : Q; d_t_OT : Q; i_WN_T : Z;
  d_DeltaT_LS : Q; d_DeltaT_LSF : Q; i_WN_LSF : Z; i_DN : Z }.

Record Gnss_Synchro := mk_sync {
  Pseudorange_m : Q; Carrier_phase_rads : Q; Carrier_Doppler_hz : Q; CN0_dB_hz : Q }.

Record Sbas_Raw_Msg := mk_sbas {
  get_prn : Z;
  (** [get_rx_time_obj().get_gps_time(gps_week, gps_sec)]: [None] when it
      returns false *)
  rx_gps_time : option (Z * Q);
  get_msg_type : Z;
  get_msg : list Byte.byte }.

(** The wall clock read by the header writers: boost's [local_day()] and the
    UTC time of [local_sec_clock::local_time(UTC)]. *)
Record Clock := mk_clock {
  today_year : Z; today_month : Z; today_day : Z;
  utc_year : Z; utc_month : Z; utc_day : Z;
  utc_hour : Z; utc_minute : Z; utc_second : Z }.

(** A line handed to [out << line << std::endl], flagged [true] when the code
    passes it to [lengthCheck] first. *)
Definition emitted := (bool * string)%type.

Definition lines_of (es : list emitted) : list string := map snd es.

(** [Rinex_Printer::lengthCheck]: the diagnostic it logs, if any *)
Definition lengthCheck (line : string) : list string :=
  if Nat.eqb (String.length line) 80 then []
  else ["Bad defined RINEX line: " ++ int_to_string (Z.of_nat (String.length line))
        ++ " characters (must be 80)"].

Definition log_of (es : list emitted) : list string :=
  flat_map (fun (e : emitted) => if fst e then lengthCheck (snd e) else []) es.

Definition is_version (p : Rinex_Printer) (k : Z) : bool :=
  match version p with Some v => Z.eqb v k | None => false end.

(** [if (x < 10) strm << "0"; strm << x;] *)
Definition two_digits (x : Z) : string :=
  (if x <? 10 then "0" else "") ++ int_to_string x.

Definition month_abbrev (k : Z) : string :=
  map_getZ [(0, "JAN"); (1, "FEB"); (2, "MAR"); (3, "APR"); (4, "MAY"); (5, "JUN");
            (6, "JUL"); (7, "AUG"); (8, "SEP"); (9, "OCT"); (10, "NOV"); (11, "DEC")] k.

(** [boost::gregorian::to_iso_string(date)]: YYYYMMDD *)
Definition iso_date (y m d : Z) : string :=
  rightJustifyc (int_to_string y) 4 "0" ++ rightJustifyc (int_to_string m) 2 "0"
  ++ rightJustifyc (int_to_string d) 2 "0".

(** [Rinex_Printer::getLocalTime] *)
Definition getLocalTime (p : Rinex_Printer) (c : Clock) : string :=
  let line := "GNSS-SDR" ++ spaces 12 ++ leftJustify "CTTC" 20 in
  let hh := two_digits (utc_hour c) in
  let mm := two_digits (utc_minute c) in
  let line :=
    if is_version p 2 then
      line ++ rightJustify (int_to_string (utc_day c)) 2 ++ "-"
      ++ month_abbrev (utc_month c - 1) ++ "-"
      ++ int_to_string (utc_year c - 2000) ++ " " ++ hh ++ ":" ++ mm ++ spaces 5
    else line in
  if is_version p 3 then
    line ++ " " ++ iso_date (today_year c) (today_month c) (today_day c) ++ hh ++ mm
    ++ two_digits (utc_second c) ++ " " ++ "UTC" ++ " "
  else line.

(** [fmod(x, 60)] on the exact value *)
Definition Qtrunc (x : Q) : Z := if Qle_bool 0 x then Qfloor x else - Qfloor (- x).
Definition fmod (x y : Q) : Q := x - inject_Z (Qtrunc (x / y)) * y.

(** [GPS_TWO_PI] *)
Definition GPS_TWO_PI : Q := 6283185307179586 # 1000000000000000.

(** [std::hex << std::setfill('0') << std::setw(2) << int(b)] *)
Definition hex_digit (n : N) : string :=
  String (match n with
          | 0%N => "0" | 1%N => "1" | 2%N => "2" | 3%N => "3" | 4%N => "4"
          | 5%N => "5" | 6%N => "6" | 7%N => "7" | 8%N => "8" | 9%N => "9"
          | 10%N => "a" | 11%N => "b" | 12%N => "c" | 13%N => "d" | 14%N => "e"
          | _ => "f" end)%char EmptyString.

Definition hex2 (b : Byte.byte) : string :=
  let n := Byte.to_N b in hex_digit (N.div n 16) ++ hex_digit (N.modulo n 16).

(** Exceptions the writers can raise *)
Inductive cxx_exception := length_error.

(** [std::string::max_size()] of libstdc++ on LP64 targets *)
Definition string_max_size : Z := 2 ^ 62 - 1.

(** [std::string(80 - line.size(), ' ')]: the subtraction is on [size_t]
    (64-bit, wrapping), and the constructor throws [std::length_error] for a
    count above [max_size()]. *)
Definition pad_to_80 (line : string) : cxx_exception + string :=
  let n := (80 - Z.of_nat (String.length line)) mod 2 ^ 64 in
  if n <=? string_max_size then inr (line ++ spaces (Z.to_nat n)) else inl length_error.

(** C's [round]: halves away from zero *)
Definition Cround (x : Q) : Z :=
  if Qle_bool 0 x then Qfloor (x + (1 # 2)) else - Qfloor (- x + (1 # 2)).

(** The reception time of [log_rinex_sbs] rounded to a tenth of a second:
    [gps_sec_one_digit_precicion = round(gps_sec*10)/10] and
    [gps_tow = trunc(gps_sec_one_digit_precicion)] *)
Definition sbs_one_digit (gps_sec : Q) : Q := (inject_Z (Cround (gps_sec * 10)) / 10)%Q.

Definition sbs_gps_tow (gps_sec : Q) : Z := Qtrunc (sbs_one_digit gps_sec).

(** [double(second) + sub_sec], the seconds written on the SBAS epoch *)
Definition sbs_second_value (gps_week : Z) (gps_sec : Q) : Q :=
  let sub_sec := (sbs_one_digit gps_sec - inject_Z (sbs_gps_tow gps_sec))%Q in
  (inject_Z (dt_second (to_date_time gps_week (sbs_gps_tow gps_sec))) + sub_sec)%Q.

Section Writers.

(** Renderings declared in [rinex_printer.h]: [doub2for(d, length, expLen)],
    [asString(x, precision)], [boost::lexical_cast<std::string>(double)],
    [asFixWidthString(x, width, fill)], and
    [to_iso_string(compute_GPS_time(eph, t))], which reads the ephemeris' GPS
    week only. *)
Variable doub2for : Q -> nat -> nat -> string.
Variable asString : Q -> nat -> string.
Variable lexical_cast_double : Q -> string.
Variable asFixWidthString : Z -> nat -> ascii -> string.
Variable gps_iso_time : Z -> Q -> string.

Definition D18 (x : Q) : string := doub2for x 18 2.

(** [Rinex_Printer::rinex_nav_header] *)
Definition rinex_nav_header (p : Rinex_Printer) (c : Clock) (iono : Gps_Iono)
  (utc : Gps_Utc_Model) : list emitted :=
  let v2 := is_version p 2 in
  let v3 := is_version p 3 in
  let l1 :=
    spaces 5 ++ stringVersion p ++ spaces 11
    ++ (if v2 then "N: GPS NAV DATA" ++ spaces 25 else "")
    ++ (if v3 then "N: GNSS NAV DATA" ++ spaces 4 ++ "G: GPS" ++ spaces 14 else "")
    ++ "RINEX VERSION / TYPE" in
  let l2 := getLocalTime p c ++ "PGM / RUN BY / DATE" ++ " " in
  let l3 := leftJustify "GPS NAVIGATION MESSAGE FILE GENERATED BY GNSS-SDR" 60
            ++ leftJustify "COMMENT" 20 in
  let l4 := leftJustify "See http://gnss-sdr.org" 60 ++ leftJustify "COMMENT" 20 in
  let d10 x := rightJustify (doub2for x 10 2) 12 in
  let l5 :=
    (if v2 then spaces 2 ++ d10 (d_alpha0 iono) ++ d10 (d_alpha1 iono)
                ++ d10 (d_alpha2 iono) ++ d10 (d_alpha3 iono) ++ spaces 10
                ++ leftJustify "ION ALPHA" 20 else "")
    ++ (if v3 then "GPSA" ++ " " ++ d10 (d_alpha0 iono) ++ d10 (d_alpha1 iono)
                ++ d10 (d_alpha2 iono) ++ d10 (d_alpha3 iono) ++ spaces 7
                ++ leftJustify "IONOSPHERIC CORR" 20 else "") in
  let l6 :=
    (if v2 then spaces 2 ++ d10 (d_beta0 iono) ++ d10 (d_beta1 iono)
                ++ d10 (d_beta2 iono) ++ d10 (d_beta3 iono) ++ spaces 10
                ++ leftJustify "ION BETA" 20 else "")
    ++ (if v3 then "GPSB" ++ " " ++ d10 (d_beta0 iono) ++ d10 (d_beta1 iono)
                ++ d10 (d_beta2 iono) ++ d10 (d_beta3 iono) ++ spaces 7
                ++ leftJustify "IONOSPHERIC CORR" 20 else "") in
  let l7 :=
    (if v2 then spaces 3 ++ rightJustify (doub2for (d_A0 utc) 18 2) 19
                ++ rightJustify (doub2for (d_A1 utc) 18 2) 19
                ++ rightJustify (lexical_cast_double (d_t_OT utc)) 9
                ++ rightJustify (int_to_string (i_WN_T utc + 1024)) 9
                ++ " " ++ leftJustify "DELTA-UTC: A0,A1,T,W" 20 else "")
    ++ (if v3 then "GPUT" ++ rightJustify (doub2for (d_A0 utc) 16 2) 18
                ++ rightJustify (doub2for (d_A1 utc) 15 2) 16
                ++ rightJustify (lexical_cast_double (d_t_OT utc)) 7
                ++ rightJustify (int_to_string (i_WN_T utc + 1024)) 5
                ++ spaces 10 ++ leftJustify "TIME SYSTEM CORR" 20 else "") in
  let l8 :=
    rightJustify (lexical_cast_double (d_DeltaT_LS utc)) 6
    ++ (if v2 then spaces 54 else "")
    ++ (if v3 then rightJustify (lexical_cast_double (d_DeltaT_LSF utc)) 6
                   ++ rightJustify (int_to_string (i_WN_LSF utc)) 6
                   ++ rightJustify (int_to_string (i_DN utc)) 6 ++ spaces 36 else "")
    ++ leftJustify "LEAP SECONDS" 20 in
  let l9 := spaces 60 ++ leftJustify "END OF HEADER" 20 in
  map (pair true) [l1; l2; l3; l4; l5; l6; l7; l8; l9].

(** [Rinex_Printer::rinex_sbs_header] *)
Definition rinex_sbs_header (c : Clock) : list emitted :=
  let l1 := spaces 5 ++ "2.10" ++ spaces 11 ++ leftJustify "B SBAS DATA" 20
            ++ spaces 20 ++ "RINEX VERSION / TYPE" in
  let time_str :=
    two_digits (utc_day c) ++ "-" ++ two_digits (utc_month c) ++ "-"
    ++ int_to_string (utc_year c - 2000) ++ " " ++ two_digits (utc_hour c)
    ++ two_digits (utc_minute c) in
  let l2 := leftJustify "GNSS-SDR" 20 ++ leftJustify "CTTC" 20
            ++ leftJustify time_str 20 ++ leftJustify "PGM / RUN BY / DATE" 20 in
  let l3 := spaces 60 ++ leftJustify "REC INDEX/TYPE/VERS" 20 in
  let l4 := leftJustify "BROADCAST DATA FILE FOR GEO SV, GENERATED BY GNSS-SDR" 60
            ++ leftJustify "COMMENT" 20 in
  let l5 := leftJustify "See http://gnss-sdr.org" 60 ++ leftJustify "COMMENT" 20 in
  let l6 := spaces 60 ++ leftJustify "END OF HEADER" 20 in
  map (pair true) [l1; l2; l3; l4; l5; l6].

(** The padding that opens and closes a broadcast-orbit line *)
Definition orbit_open (p : Rinex_Printer) : string :=
  (if is_version p 2 then spaces 4 else "") ++ (if is_version p 3 then spaces 5 else "").

Definition orbit_close (p : Rinex_Printer) : string :=
  if is_version p 2 then " " else "".

Definition four_D (a b c d : Q) : string :=
  D18 a ++ " " ++ D18 b ++ " " ++ D18 c ++ " " ++ D18 d.

(** One iteration of the loop of [log_rinex_nav]: [line] is the value of the
    [line] variable on entry; returns the emitted lines and [line] on exit. *)
Definition nav_record (p : Rinex_Printer) (line : string) (e : Gps_Ephemeris)
  : list emitted * string :=
  let ts := gps_iso_time (i_GPS_week e) (d_TOW e) in
  let month := substr ts 4 2 in
  let day := substr ts 6 2 in
  let hour := substr ts 9 2 in
  let minutes := substr ts 11 2 in
  let seconds := substr ts 13 2 in
  let line :=
    if is_version p 2 then
      let year := substr ts 2 2 in
      let decimal := "0" in
      (* [if (timestring.size() > 16) { std::string decimal(timestring, 16, 1); }]
         declares a new [decimal] local to the block, which is dropped *)
      let _ := if Nat.ltb 16 (String.length ts) then substr ts 16 1 else "" in
      line ++ rightJustify (int_to_string (i_satellite_PRN e)) 2 ++ " " ++ year
      ++ " " ++ month ++ " " ++ day ++ " " ++ hour ++ " " ++ minutes ++ " " ++ seconds
      ++ "." ++ decimal ++ " " ++ D18 (d_A_f0 e) ++ " " ++ D18 (d_A_f1 e) ++ " "
      ++ D18 (d_A_f2 e) ++ " "
    else line in
  let line :=
    if is_version p 3 then
      let year := substr ts 0 4 in
      line ++ map_get (satelliteSystem p) "GPS"
      ++ (if i_satellite_PRN e <? 10 then "0" else "")
      ++ int_to_string (i_satellite_PRN e) ++ " " ++ year ++ " " ++ month ++ " " ++ day
      ++ " " ++ hour ++ " " ++ minutes ++ " " ++ seconds ++ " " ++ D18 (d_A_f0 e)
      ++ " " ++ D18 (d_A_f1 e) ++ " " ++ D18 (d_A_f2 e)
    else line in
  let clock := line in
  let o1 := orbit_open p ++ four_D 0 (d_Crs e) (d_Delta_n e) (d_M_0 e) ++ orbit_close p in
  let o2 := orbit_open p ++ four_D (d_Cuc e) (d_e_eccentricity e) (d_Cus e) (d_sqrt_A e)
            ++ orbit_close p in
  let o3 := orbit_open p ++ four_D (d_Toe e) (d_Cic e) (d_OMEGA0 e) (d_Cis e)
            ++ orbit_close p in
  let o4 := orbit_open p ++ four_D (d_i_0 e) (d_Crc e) (d_OMEGA e) (d_OMEGA_DOT e)
            ++ orbit_close p in
  let o5 := orbit_open p ++ four_D (d_IDOT e) (inject_Z (i_code_on_L2 e))
                                   (inject_Z (i_GPS_week e + 1024))
                                   (inject_Z (i_code_on_L2 e)) ++ orbit_close p in
  let o6 := orbit_open p ++ four_D (inject_Z (i_SV_accuracy e)) (inject_Z (i_SV_health e))
                                   (d_TGD e) (d_IODC e) ++ orbit_close p in
  let o7 := orbit_open p ++ D18 (d_TOW e) ++ " " ++ D18 (curve_fit_interval e) ++ " "
            ++ spaces 18 ++ " " ++ spaces 18 ++ orbit_close p in
  (map (pair true) [clock; o1; o2; o3; o4; o5; o6; o7], "").

Fixpoint nav_loop (p : Rinex_Printer) (line : string) (m : list (Z * Gps_Ephemeris))
  : list emitted :=
  match m with
  | [] => []
  | (_, e) :: m' => let '(es, line') := nav_record p line e in app es (nav_loop p line' m')
  end.

(** [Rinex_Printer::log_rinex_nav(out, eph_map)] *)
Definition log_rinex_nav (p : Rinex_Printer) (eph_map : list (Z * Gps_Ephemeris))
  : list emitted :=
  nav_loop p "" eph_map.

(** [Rinex_Printer::rinex_obs_header]; [user] is [getenv("USER")]. *)
Definition rinex_obs_header (p : Rinex_Printer) (c : Clock) (user : string)
  (eph : Gps_Ephemeris) (d_TOW_first_observation : Q) : list emitted :=
  let v2 := is_version p 2 in
  let v3 := is_version p 3 in
  let sys := map_get (satelliteSystem p) "GPS" in
  let ot := map_get (observationType p) in
  let oc := map_get (observationCode p) in
  let l1 := spaces 5 ++ stringVersion p ++ spaces 11 ++ leftJustify "OBSERVATION DATA" 20
            ++ sys ++ spaces 19 ++ "RINEX VERSION / TYPE" in
  let l2 :=
    (if v2 then leftJustify "BLANK OR G = GPS,  R = GLONASS,  E = GALILEO,  M = MIXED" 60
     else "")
    ++ (if v3 then leftJustify "G = GPS  R = GLONASS  E = GALILEO  S = GEO  M = MIXED" 60
        else "")
    ++ leftJustify "COMMENT" 20 in
  let l3 := getLocalTime p c ++ "PGM / RUN BY / DATE" ++ " " in
  let l4 := leftJustify "GPS OBSERVATION DATA FILE GENERATED BY GNSS-SDR" 60
            ++ leftJustify "COMMENT" 20 in
  let l5 := leftJustify "See http://gnss-sdr.org" 60 ++ leftJustify "COMMENT" 20 in
  let l6 := leftJustify "DEFAULT MARKER NAME" 60 ++ leftJustify "MARKER NAME" 20 in
  let l7 := leftJustify user 20 ++ leftJustify "CTTC" 40
            ++ leftJustify "OBSERVER / AGENCY" 20 in
  let l8 := leftJustify "GNSS-SDR" 20 ++ leftJustify "Software Receiver" 20
            ++ leftJustify "0.1" 20 ++ leftJustify "REC # / TYPE / VERS" 20 in
  let l9 := leftJustify "Antenna number" 20 ++ leftJustify "Antenna type" 20
            ++ spaces 20 ++ leftJustify "ANT # / TYPE" 20 in
  let pos x := rightJustify (asString x 4) 14 in
  let l10 := pos 0%Q ++ pos 0%Q ++ pos 0%Q ++ spaces 18 ++ leftJustify "APPROX POSITION XYZ" 20 in
  let l11 := pos 0%Q ++ pos 0%Q ++ pos 0%Q ++ spaces 18
             ++ leftJustify "ANTENNA: DELTA H/E/N" 20 in
  let wl := if v2 then
              [rightJustify "1" 6 ++ rightJustify "1" 6 ++ spaces 48
               ++ leftJustify "WAVELENGTH FACT L1/2" 20] else [] in
  let sys_types :=
    if v3 then
      let line := sys ++ spaces 2
                  ++ rightJustify (int_to_string (numberTypesObservations p)) 3
                  ++ " " ++ ot "PSEUDORANGE" ++ oc "GPS_L1_CA" ++ " "
                  ++ ot "SIGNAL_STRENGTH" ++ oc "GPS_L1_CA" in
      [line ++ spaces (60 - String.length line) ++ leftJustify "SYS / # / OBS TYPES" 20]
    else [] in
  let types_v2 :=
    if v2 then
      let line := rightJustify (int_to_string (numberTypesObservations p)) 6
                  ++ rightJustify (ot "PSEUDORANGE_CA_v2") 5 ++ oc "GPS_L1_CA_v2"
                  ++ rightJustify (ot "CARRIER_PHASE_CA_v2") 5 ++ oc "GPS_L1_CA_v2"
                  ++ rightJustify (ot "DOPPLER_v2") 5 ++ oc "GPS_L1_CA_v2"
                  ++ rightJustify (ot "SIGNAL_STRENGTH_v2") 5 ++ oc "GPS_L1_CA_v2" in
      [line ++ spaces (60 - String.length line) ++ leftJustify "# / TYPES OF OBSERV" 20]
    else [] in
  let ss_unit :=
    if v3 then [leftJustify "DBHZ" 20 ++ spaces 40 ++ leftJustify "SIGNAL STRENGTH UNIT" 20]
    else [] in
  let ts := gps_iso_time (i_GPS_week eph) d_TOW_first_observation in
  let first :=
    rightJustify (substr ts 0 4) 6 ++ rightJustify (substr ts 4 2) 6
    ++ rightJustify (substr ts 6 2) 6 ++ rightJustify (substr ts 9 2) 6
    ++ rightJustify (substr ts 11 2) 6
    ++ rightJustify (asString (fmod d_TOW_first_observation 60) 7) 13
    ++ rightJustify "GPS" 8 ++ spaces 9 ++ leftJustify "TIME OF FIRST OBS" 20 in
  let eoh := spaces 60 ++ leftJustify "END OF HEADER" 20 in
  map (pair true)
    (app [l1; l2; l3; l4; l5; l6; l7; l8; l9; l10; l11]
       (app wl (app sys_types (app types_v2 (app ss_unit [first; eoh]))))).

(** The satellite id written for a PRN: ["G"], a ['0'] below 10, the number *)
Definition sat_id (p : Rinex_Printer) (prn : Z) : string :=
  map_get (satelliteSystem p) "GPS" ++ (if prn <? 10 then "0" else "") ++ int_to_string prn.

(** [if (lineObs.size() < 80) lineObs += std::string(80 - lineObs.size(), ' ');] *)
Definition pad_short_80 (s : string) : string :=
  if Nat.ltb (String.length s) 80 then s ++ spaces (80 - String.length s) else s.

(** A version 2 observation line (not passed to [lengthCheck]) *)
Definition obs_line_v2 (s : Gnss_Synchro) : string :=
  let lli := 0 in
  pad_short_80
    (rightJustify (asString (Pseudorange_m s) 3) 14
     ++ (if lli =? 0 then " " else rightJustify (int_to_string lli) 1)
     ++ rightJustify (asString (Carrier_phase_rads s / GPS_TWO_PI) 3) 14
     ++ rightJustify (asString (Carrier_Doppler_hz s) 3) 14
     ++ rightJustify (asString (CN0_dB_hz s) 3) 14).

(** A version 3 observation line (not passed to [lengthCheck]) *)
Definition obs_line_v3 (p : Rinex_Printer) (prn : Z) (s : Gnss_Synchro) : string :=
  let lli := 0 in
  let ssi := match signalStrength 54 with Some v => v | None => 0 end in
  pad_short_80
    (sat_id p prn ++ rightJustify (asString (Pseudorange_m s) 3) 14
     ++ (if lli =? 0 then " " else rightJustify (int_to_string lli) 1)
     ++ (if ssi =? 0 then " " else rightJustify (int_to_string ssi) 1)).

(** The version 2 epoch line of [log_rinex_obs] before its padding: date and
    time from the timestamp [ts] (a leading zero of month and day written as a
    space), the seconds, the epoch flag, the satellite count and the
    satellite ids *)
Definition obs_epoch_line_v2 (p : Rinex_Printer) (ts : string) (gps_t : Q)
  (pseudoranges : list (Z * Gnss_Synchro)) : string :=
  let month := substr ts 4 2 in
  let day := substr ts 6 2 in
  let hour := substr ts 9 2 in
  let minutes := substr ts 11 2 in
  let nsat := Z.of_nat (length pseudoranges) in
  let drop0 s := if String.eqb (substr s 0 1) "0" then " " ++ substr s 1 1 else s in
  " " ++ substr ts 2 2 ++ " " ++ drop0 month ++ " " ++ drop0 day ++ " " ++ hour
  ++ " " ++ minutes ++ " " ++ asString (fmod gps_t 60) 7 ++ spaces 2 ++ "0"
  ++ rightJustify (int_to_string nsat) 3
  ++ String.concat "" (map (fun '(prn, _) => sat_id p prn) pseudoranges).

(** [Rinex_Printer::log_rinex_obs(out, eph, obs_time, pseudoranges)]: the lines
    written, and the exception that escapes the call, if any. *)
Definition log_rinex_obs (p : Rinex_Printer) (eph : Gps_Ephemeris) (obs_time : Q)
  (pseudoranges : list (Z * Gnss_Synchro)) : list emitted * option cxx_exception :=
  let ts := gps_iso_time (i_GPS_week eph) obs_time in
  let gps_t := obs_time in
  let month := substr ts 4 2 in
  let day := substr ts 6 2 in
  let hour := substr ts 9 2 in
  let minutes := substr ts 11 2 in
  let nsat := Z.of_nat (length pseudoranges) in
  let r2 :=
    if is_version p 2 then
      let line := obs_epoch_line_v2 p ts gps_t pseudoranges in
      match pad_to_80 line with
      | inl ex => ([], Some ex)
      | inr line =>
          ((true, line) :: map (fun '(_, s) => (false, obs_line_v2 s)) pseudoranges, None)
      end
    else ([], None) in
  match r2 with
  | (_, Some _) => r2
  | (es2, None) =>
    if is_version p 3 then
      let seconds := fmod gps_t 60 in
      let line :=
        ">" ++ " " ++ substr ts 0 4 ++ " " ++ month ++ " " ++ day ++ " " ++ hour ++ " "
        ++ minutes ++ " " ++ (if Qltb seconds 10 then "0" else "") ++ asString seconds 7
        ++ spaces 2 ++ "0" ++ rightJustify (int_to_string nsat) 3 in
      match pad_to_80 line with
      | inl ex => (es2, Some ex)
      | inr line =>
          (app es2 ((true, line)
                      :: map (fun '(prn, s) => (false, obs_line_v3 p prn s)) pseudoranges),
           None)
      end
    else (es2, None)
  end.

Definition hex_bytes (bs : list Byte.byte) : string :=
  String.concat "" (map (fun b => hex2 b ++ " ") bs).

(** [Rinex_Printer::log_rinex_sbs(out, sbs_message)] *)
Definition log_rinex_sbs (m : Sbas_Raw_Msg) : list emitted :=
  let time :=
    match rx_gps_time m with
    | Some (gps_week, gps_sec) =>
        let dt := to_date_time gps_week (sbs_gps_tow gps_sec) in
        asFixWidthString (dt_year dt) 2 "0" ++ " " ++ asFixWidthString (dt_month dt) 2 "0"
        ++ " " ++ asFixWidthString (dt_day dt) 2 "0" ++ " "
        ++ asFixWidthString (dt_hour dt) 2 "0" ++ " "
        ++ asFixWidthString (dt_minute dt) 2 "0" ++ " "
        ++ rightJustifyc (asString (sbs_second_value gps_week gps_sec) 1) 4 " "
    | None => spaces 19
    end in
  let msg := get_msg m in
  let line1 :=
    int_to_string (get_prn m) ++ " " ++ time ++ "  " ++ "L1" ++ "   "
    ++ asFixWidthString (Z.of_nat (length msg)) 3 " " ++ "   " ++ "  0" ++ "   " ++ "SBA"
    ++ spaces 35 in
  let line2 :=
    " " ++ (if get_msg_type m <? 10 then " " else "") ++ int_to_string (get_msg_type m)
    ++ spaces 4 ++ hex_bytes (firstn 18 msg) ++ spaces 19 in
  let line3 := spaces 7 ++ hex_bytes (firstn 18 (skipn 18 msg)) ++ spaces 31 in
  map (pair true) [line1; line2; line3].

End Writers.

(** ** Concrete renderings *)

(** [boost::posix_time::to_iso_string(compute_GPS_time(eph, obs_time))]:
    [compute_GPS_time] adds [millisec((obs_time + 604800 * (week % 1024)) * 1000)]
    (the double truncated to an integer count of milliseconds) to 1999-08-22
    00:00 (day 10825 after 1970-01-01); [to_iso_string] writes
    YYYYMMDDTHHMMSS and, when the fractional second is not zero, a point and
    six digits of microseconds. *)
Definition compute_GPS_time_iso (week : Z) (obs_time : Q) : string :=
  let ms := Qtrunc ((obs_time + inject_Z (604800 * Z.rem week 1024)) * 1000) in
  let total := 10825 * 86400000 + ms in
  let days := total / 86400000 in
  let r := total mod 86400000 in
  let '(y, m, d) := civil_from_days days in
  let pad2 z := rightJustifyc (int_to_string z) 2 "0" in
  iso_date y m d ++ "T" ++ pad2 (r / 3600000) ++ pad2 ((r / 60000) mod 60)
  ++ pad2 ((r / 1000) mod 60)
  ++ (if r mod 1000 =? 0 then "" else "." ++ rightJustifyc (int_to_string ((r mod 1000) * 1000)) 6 "0").

(** Rounding to the nearest integer, ties to even *)
Definition round_half_even (q : Q) : Z :=
  let f := Qfloor q in
  let fr := (q - inject_Z f)%Q in
  if Qltb fr (1 # 2) then f
  else if Qltb (1 # 2) fr then f + 1
  else if Z.even f then f else f + 1.

(** [std::ostringstream << std::fixed << std::setprecision(p) << x] for a
    finite double of exact value [x]: the value rounded to [p] decimals. *)
Definition asString_fixed (x : Q) (p : nat) : string :=
  let n := round_half_even (x * inject_Z (10 ^ Z.of_nat p)) in
  let a := Z.abs n in
  (if Qltb x 0 then "-" else "")
  ++ int_to_string (a / 10 ^ Z.of_nat p)
  ++ (match p with
      | O => ""
      | _ => "." ++ rightJustifyc (int_to_string (a mod 10 ^ Z.of_nat p)) p "0"
      end).

(** A field of exactly [w] characters: right-justified with [c], keeping the
    last [w] characters of a longer text *)
Definition fit_right (s : string) (w : nat) (c : ascii) : string :=
  let t := rightJustifyc s w c in
  String.substring (String.length t - w) w t.

(** Sample instances of the remaining renderings, of the widths the spec
    gives them: a [doub2for] of exactly the requested width, an
    [asFixWidthString] of exactly the requested width, and the integral
    rendering [boost::lexical_cast] gives an integral double. *)
Definition sample_doub2for (x : Q) (w e : nat) : string :=
  fit_right (int_to_string (Qfloor x) ++ "D+00") w " ".

Definition sample_asFixWidthString (z : Z) (w : nat) (c : ascii) : string :=
  fit_right (int_to_string z) w c.

Definition sample_lexical_cast_double (x : Q) : string := int_to_string (Qfloor x).

(** ** Sample inputs *)

(** The printer built with a given [FLAGS_RINEX_version] on an empty
    directory *)
Definition printer_of (flag : string) : Rinex_Printer :=
  fst (fst (Rinex_Printer_ctor [] "nav.nav" "obs.obs" "sbs.sbs" flag)).

Definition sample_clock : Clock := mk_clock 2026 10 19 2026 10 19 8 5 9.

Definition sample_iono : Gps_Iono := mk_iono 0 0 0 0 0 0 0 0.

Definition sample_utc : Gps_Utc_Model := mk_utc 0 0 61440 1838 18 18 1929 7.

(** An ephemeris of PRN 5 of the given block, with the given IODC *)
Definition eph_with_block (blk : string) (iodc : Q) : Gps_Ephemeris :=
  mk_eph 5 (3456789 # 10) 0 0 0 0 0 0 0 0 0 0 0 0 0 0 0 0 0 0 0 1 100 0 0 0 iodc
         [(5, blk)].

Definition sample_eph : Gps_Ephemeris := eph_with_block "IIR" 496.

Definition sample_sync : Gnss_Synchro :=
  mk_sync (21234567891 # 1000) (628318530 # 100) (-12345 # 10) 45.

Definition byte_of_nat (n : nat) : Byte.byte :=
  match Byte.of_nat n with Some b => b | None => Byte.x00 end.

(** A payload of [n] bytes [first], [first + 1], ... *)
Definition sample_payload (first n : nat) : list Byte.byte := map byte_of_nat (seq first n).

Definition sample_sbas (n : nat) : Sbas_Raw_Msg :=
  mk_sbas 120 (Some (2440, 345678 # 10)) 9 (sample_payload 0 n).

(** A printer built with version 2.11 on an empty directory, after one line
    [x] is written through stream [w] *)
Definition written_through (w : which_stream) : Rinex_Printer * filesys :=
  let '(p, fs, _) := Rinex_Printer_ctor [] "nav.nav" "obs.obs" "sbs.sbs" "2.11" in
  printer_write p fs w ["x"].

(** The directory once that printer is destroyed *)
Definition after_destruction (w : which_stream) : filesys :=
  let '(p, fs) := written_through w in Rinex_Printer_dtor p fs.

(** An epoch of [n] satellites, PRN 1 to [n] *)
Definition sats_epoch (n : nat) : list (Z * Gnss_Synchro) :=
  map (fun k => (Z.of_nat k, sample_sync)) (seq 1 n).

(** An observation whose pseudorange, 2^113 m, is rendered on 39 columns *)
Definition huge_sync : Gnss_Synchro := mk_sync (inject_Z (2 ^ 113)) 0 0 45.

(** [t] occurs in [s] *)
Definition contains (s t : string) : Prop := exists pre post, s = pre ++ t ++ post.

(** The four fields of a version 2 observation line each fit their 14
    columns *)
Definition obs_fields_fit (asString : Q -> nat -> string) (s : Gnss_Synchro) : Prop :=
  (String.length (asString (Pseudorange_m s) 3) <= 14)%nat /\
  (String.length (asString (Carrier_phase_rads s / GPS_TWO_PI)%Q 3) <= 14)%nat /\
  (String.length (asString (Carrier_Doppler_hz s) 3) <= 14)%nat /\
  (String.length (asString (CN0_dB_hz s) 3) <= 14)%nat.

(** [b] holds for the [n] integers from [lo] on *)
Fixpoint all_in (lo : Z) (n : nat) (b : Z -> bool) : bool :=
  match n with
  | O => true
  | S k => b lo && all_in (lo + 1) k b
  end.

(** The wall clock is a valid date and time of 2010-2099 *)
Definition clock_ok (c : Clock) : Prop :=
  2010 <= utc_year c <= 2099 /\ 1 <= utc_month c <= 12 /\ 1 <= utc_day c <= 31 /\
  0 <= utc_hour c <= 23 /\ 0 <= utc_minute c <= 59 /\ 0 <= utc_second c <= 60 /\
  2010 <= today_year c <= 2099 /\ 1 <= today_month c <= 12 /\ 1 <= today_day c <= 31.

(** The renderings of the UTC parameters fit the narrowest fields the
    navigation header gives them (those of version 3) *)
Definition utc_fits (lexical_cast_double : Q -> string) (utc : Gps_Utc_Model) : Prop :=
  (String.length (lexical_cast_double (d_t_OT utc)) <= 7)%nat /\
  (String.length (int_to_string (i_WN_T utc + 1024)) <= 5)%nat /\
  (String.length (lexical_cast_double (d_DeltaT_LS utc)) <= 6)%nat /\
  (String.length (lexical_cast_double (d_DeltaT_LSF utc)) <= 6)%nat /\
  (String.length (int_to_string (i_WN_LSF utc)) <= 6)%nat /\
  (String.length (int_to_string (i_DN utc)) <= 6)%nat.

(** An observation of a GPS PRN of at most two digits whose four fields fit
    their columns *)
Definition obs_ok (asString : Q -> nat -> string) (ke : Z * Gnss_Synchro) : Prop :=
  0 <= fst ke <= 99 /\ obs_fields_fit asString (snd ke).

(** Every line is 80 characters *)
Definition all80 (ls : list string) : Prop := Forall (fun l => String.length l = 80%nat) ls.

(** An SBAS message of a three-digit PRN, a message type of at most two
    digits, the 32 bytes of an SBAS data block (250 bits), and a seconds
    field of at most four characters *)
Definition sbs_ok (asString : Q -> nat -> string) (m : Sbas_Raw_Msg) : Prop :=
  100 <= get_prn m <= 999 /\ 0 <= get_msg_type m <= 99 /\ length (get_msg m) = 32%nat /\
  match rx_gps_time m with
  | Some (w, s) => (String.length (asString (sbs_second_value w s) 1) <= 4)%nat
  | None => True
  end.

(** The three version strings the constructor accepts *)
Definition supported (flag : string) : Prop :=
  flag = "2.10" \/ flag = "2.11" \/ flag = "3.01".

(** The date [to_date_time] computes from a whole number of days [D] since
    1980-01-01 agrees with the reference calendar *)
Definition day_check (D : Z) : bool :=
  let '(y, rem1, leap) :=
    year_loop (Z.to_nat (D * secs_per_day / secs_per_normal_year + 1)) 1980 (D * secs_per_day) in
  let '(m, rem2) := month_loop 12 leap 1 rem1 in
  let '(cy, cm, cd) := civil_from_days (3652 + D) in
  (y =? cy) && (m =? cm) && (0 <=? rem2) && (rem2 / secs_per_day + 1 =? cd).

(** The value of a string of decimal digits *)
Definition digits_value (s : string) : Z :=
  fold_left (fun v c => 10 * v + (Z.of_nat (nat_of_ascii c) - 48)) (list_ascii_of_string s) 0.

(** The hour a letter of [Hmap] stands for *)
Definition hour_of_tag (s : string) : Z :=
  match s with String c _ => Z.of_nat (nat_of_ascii c) - 97 | EmptyString => -1 end.

(** The day-of-year tag of [createFilename] *)
Definition doy_tag (d : Z) : string :=
  (if d <? 100 then "0" else "") ++ (if d <? 10 then "0" else "") ++ int_to_string d.

(** The minute tag of [createFilename] *)
Definition min_tag (m : Z) : string := (if m <? 10 then "0" else "") ++ int_to_string m.

(** The value of a hexadecimal digit *)
Definition hex_value (c : ascii) : N :=
  let n := N.of_nat (nat_of_ascii c) in if (n <? 97)%N then (n - 48)%N else (n - 87)%N.

(** Reading back a two-digit hexadecimal byte *)
Definition hex_decode (s : string) : option Byte.byte :=
  match s with
  | String a (String b EmptyString) => Byte.of_N (16 * hex_value a + hex_value b)
  | _ => None
  end.

(** A sequence of writes through the printer's streams, in order *)
Fixpoint printer_writes (p : Rinex_Printer) (fs : filesys)
  (ops : list (which_stream * list string)) : Rinex_Printer * filesys :=
  match ops with
  | [] => (p, fs)
  | (w, ls) :: ops' => let '(p', fs') := printer_write p fs w ls in printer_writes p' fs' ops'
  end.

(** Equality of streams *)
Definition stream_eqb (a b : which_stream) : bool :=
  match a, b with NavS, NavS | ObsS, ObsS | SbsS, SbsS => true | _, _ => false end.

(** The bytes a sequence of writes sends through one stream *)
Fixpoint bytes_through (w : which_stream) (ops : list (which_stream * list string)) : nat :=
  match ops with
  | [] => 0%nat
  | (w', ls) :: ops' =>
      ((if stream_eqb w w' then bytes_of_lines ls else 0) + bytes_through w ops')%nat
  end.

(** ** Lemmas on the text helpers *)

Lemma slen_app (a b : string) :
  String.length (a ++ b) = (String.length a + String.length b)%nat.
Proof. induction a as [|c a IH]; simpl; [reflexivity | now rewrite IH]. Qed.

Lemma sapp_assoc (a b c : string) : a ++ (b ++ c) = (a ++ b) ++ c.
Proof. induction a as [|x a IH]; simpl; [reflexivity | now rewrite IH]. Qed.

Lemma sapp_nil_r (a : string) : a ++ "" = a.
Proof. induction a as [|x a IH]; simpl; [reflexivity | now rewrite IH]. Qed.

Lemma rep_len (n : nat) (c : ascii) : String.length (rep n c) = n.
Proof. induction n as [|n IH]; simpl; congruence. Qed.

Lemma spaces_len (n : nat) : String.length (spaces n) = n.
Proof. apply rep_len. Qed.

Lemma lj_len (s : string) (w : nat) :
  String.length (leftJustify s w) = Nat.max (String.length s) w.
Proof.
  unfold leftJustify; destruct (Nat.ltb_spec (String.length s) w).
  - rewrite slen_app, spaces_len; lia.
  - lia.
Qed.

Lemma rjc_len (s : string) (w : nat) (c : ascii) :
  String.length (rightJustifyc s w c) = Nat.max (String.length s) w.
Proof.
  unfold rightJustifyc; destruct (Nat.ltb_spec (String.length s) w).
  - rewrite slen_app, rep_len; lia.
  - lia.
Qed.

Lemma rj_len (s : string) (w : nat) :
  String.length (rightJustify s w) = Nat.max (String.length s) w.
Proof. apply rjc_len. Qed.

Lemma substring_len (s : string) (n m : nat) :
  String.length (String.substring n m s) = Nat.min m (String.length s - n).
Proof.
  revert n m; induction s as [|c s IH]; intros [|n] [|m]; simpl; auto;
    rewrite IH; simpl; rewrite ?Nat.sub_0_r; reflexivity.
Qed.

Lemma substr_len (s : string) (pos n : nat) :
  String.length (substr s pos n) = Nat.min n (String.length s - pos).
Proof. apply substring_len. Qed.

Lemma fit_right_len (s : string) (w : nat) (c : ascii) :
  String.length (fit_right s w c) = w.
Proof.
  unfold fit_right; rewrite substring_len, rjc_len; lia.
Qed.

Lemma pad_short_80_len (s : string) :
  (String.length s <= 80)%nat -> String.length (pad_short_80 s) = 80%nat.
Proof.
  unfold pad_short_80; intros H; destruct (Nat.ltb_spec (String.length s) 80).
  - rewrite slen_app, spaces_len; lia.
  - lia.
Qed.

(** [std::string(80 - line.size(), ' ')] pads a line of at most 80
    characters to 80, and throws for a longer one. *)
Lemma pad_to_80_spec (line : string) :
  Z.of_nat (String.length line) <= string_max_size ->
  match pad_to_80 line with
  | inl _ => (80 < String.length line)%nat
  | inr l => (String.length line <= 80)%nat /\ String.length l = 80%nat
  end.
Proof.
  unfold pad_to_80, string_max_size; intros Hmax.
  set (L := Z.of_nat (String.length line)) in *.
  destruct (Z.le_gt_cases L 80) as [Hle | Hgt].
  - rewrite (Z.mod_small (80 - L)) by lia.
    rewrite (proj2 (Z.leb_le _ _)) by lia.
    rewrite slen_app, spaces_len; split; lia.
  - assert (Hm : (80 - L) mod 2 ^ 64 = 2 ^ 64 + (80 - L)).
    { symmetry; apply Z.mod_unique with (-1); lia. }
    rewrite Hm, (proj2 (Z.leb_gt _ _)) by lia; lia.
Qed.

Lemma all_in_sound (lo : Z) (n : nat) (b : Z -> bool) :
  all_in lo n b = true -> forall z, lo <= z < lo + Z.of_nat n -> b z = true.
Proof.
  revert lo; induction n as [|n IH]; intros lo H z Hz; simpl in *; [lia|].
  apply andb_true_iff in H as [H0 H1].
  destruct (Z.eq_dec z lo) as [->|Hne]; [exact H0|].
  apply (IH (lo + 1)); [exact H1 | lia].
Qed.

Lemma int_to_string_len1 (z : Z) : 0 <= z <= 9 -> String.length (int_to_string z) = 1%nat.
Proof.
  intros Hz; apply Nat.eqb_eq.
  apply (all_in_sound 0 10 (fun z => Nat.eqb (String.length (int_to_string z)) 1));
    [vm_compute; reflexivity | lia].
Qed.

Lemma int_to_string_len2 (z : Z) : 10 <= z <= 99 -> String.length (int_to_string z) = 2%nat.
Proof.
  intros Hz; apply Nat.eqb_eq.
  apply (all_in_sound 10 90 (fun z => Nat.eqb (String.length (int_to_string z)) 2));
    [vm_compute; reflexivity | lia].
Qed.

Lemma int_to_string_len3 (z : Z) :
  100 <= z <= 999 -> String.length (int_to_string z) = 3%nat.
Proof.
  intros Hz; apply Nat.eqb_eq.
  apply (all_in_sound 100 900 (fun z => Nat.eqb (String.length (int_to_string z)) 3));
    [vm_compute; reflexivity | lia].
Qed.

(** ** Files *)

Lemma fs_lookup_app (fs l : filesys) (k : string) :
  fs_lookup (app fs l) k =
  match fs_lookup fs k with Some v => Some v | None => fs_lookup l k end.
Proof.
  induction fs as [|[n sz] fs IH]; simpl; [reflexivity|].
  destruct (String.eqb k n); [reflexivity | exact IH].
Qed.

Lemma fs_open_app_self (fs : filesys) (n : string) : fs_lookup (fs_open_app fs n) n <> None.
Proof.
  unfold fs_open_app; destruct (fs_lookup fs n) eqn:E; [congruence|].
  rewrite fs_lookup_app, E; simpl; rewrite String.eqb_refl; discriminate.
Qed.

Lemma fs_open_app_keep (fs : filesys) (n k : string) :
  fs_lookup fs k <> None -> fs_lookup (fs_open_app fs n) k <> None.
Proof.
  unfold fs_open_app; destruct (fs_lookup fs n); [tauto|].
  rewrite fs_lookup_app; destruct (fs_lookup fs k); congruence.
Qed.

(** ** C2: the curve-fit interval *)

(** C2 (code bug): for a satellite of block "IIA" the curve-fit interval is
    always the 4-hour default, whatever its IODC: the II/IIA table is guarded
    by [satelliteBlock[PRN].compare("IIA")], which holds when the block differs
    from "IIA". In particular IODC 496 and IODC 757 with block "IIA" give 4
    hours, not 14 and 98; a block other than "IIA" (here "II") with IODC 496
    does get 14 hours. *)
Theorem curve_fit_interval_IIA_default :
  (forall eph, map_getZ (satelliteBlock eph) (i_satellite_PRN eph) = "IIA" ->
               curve_fit_interval eph = 4%Q) /\
  curve_fit_interval (eph_with_block "IIA" 496) = 4%Q /\
  curve_fit_interval (eph_with_block "IIA" 757) = 4%Q /\
  curve_fit_interval (eph_with_block "II" 496) = 14%Q.
Proof.
  split; [|vm_compute; repeat split; reflexivity].
  intros eph H; unfold curve_fit_interval; rewrite H; reflexivity.
Qed.

(** ** C3: GPS time to calendar *)

(** C3 (code bug): [to_date_time] computes [gps_week * 604800 + gps_tow] and
    adds five days in 32-bit [int] arithmetic, which overflows from January
    2048 on. Week 3600 (3 January 2049, inside 1980-2099) already overflows
    the product; with two's complement wrap-around the result is the
    nonsensical 1980-01-(-24504) (-6):(-28):(-16), while the calendar gives
    2049-01-03 00:00:00. Below the overflow the two agree, e.g. at week 1200,
    time of week 345600 (2003-01-09). *)
Theorem to_date_time_overflows_2049 :
  3600 * secs_per_week > 2 ^ 31 - 1 /\
  reference_date_time (3600 * secs_per_week) = mk_dt 2049 1 3 0 0 0 /\
  to_date_time 3600 0 = mk_dt 1980 1 (-24504) (-6) (-28) (-16) /\
  to_date_time 1200 345600 = reference_date_time (1200 * secs_per_week + 345600) /\
  to_date_time 1200 345600 = mk_dt 2003 1 9 0 0 0.
Proof. vm_compute; repeat split; reflexivity. Qed.

(** ** C4: removal of empty files *)

(** C4 (code bug): the destructor reads the SBAS stream's position from the
    observation stream ([poss = obsFile.tellp()]). After one line is written
    to the SBAS stream only, the SBAS file is deleted although it received 2
    bytes; after one line is written to the observation stream only, the
    SBAS file survives although nothing was written to it. *)
Theorem destructor_sbs_follows_obs :
  of_pos (sbsFile (fst (written_through SbsS))) = 2%nat /\
  fs_lookup (snd (written_through SbsS)) "sbs.sbs" = Some 2%nat /\
  fs_lookup (after_destruction SbsS) "sbs.sbs" = None /\
  of_pos (sbsFile (fst (written_through ObsS))) = 0%nat /\
  fs_lookup (after_destruction ObsS) "sbs.sbs" = Some 0%nat.
Proof. vm_compute; repeat split; reflexivity. Qed.

(** ** C5: unknown version strings *)

(** C5 (counterexample): with the version string "2.12" the constructor
    returns normally, only logs the error, leaves the version unset, and the
    three output files exist (opened in append mode before the check). *)
Lemma ctor_unknown_version_2_12 :
  let '(p, fs, log) := Rinex_Printer_ctor [] "nav.nav" "obs.obs" "sbs.sbs" "2.12" in
  version p = None /\
  log = ["Unknown RINEX version 2.12 (must be 2.11 or 3.01)"] /\
  fs_lookup fs "nav.nav" = Some 0%nat /\ fs_lookup fs "obs.obs" = Some 0%nat /\
  fs_lookup fs "sbs.sbs" = Some 0%nat.
Proof. vm_compute; repeat split; reflexivity. Qed.

(** C5 (amended): for every version string other than "2.10", "2.11" and
    "3.01", construction does not fail: it logs "Unknown RINEX version <v>
    (must be 2.11 or 3.01)", leaves the version unset and nothing is reported
    to the caller; the three output files exist afterwards. *)
Theorem ctor_unknown_version (fs : filesys) (navn obsn sbsn flag : string) :
  flag <> "2.10" -> flag <> "2.11" -> flag <> "3.01" ->
  let '(p, fs', log) := Rinex_Printer_ctor fs navn obsn sbsn flag in
  version p = None /\
  log = ["Unknown RINEX version " ++ flag ++ " (must be 2.11 or 3.01)"] /\
  fs_lookup fs' navn <> None /\ fs_lookup fs' obsn <> None /\ fs_lookup fs' sbsn <> None.
Proof.
  intros H1 H2 H3; unfold Rinex_Printer_ctor.
  apply String.eqb_neq in H1, H2, H3; rewrite H1, H2, H3.
  repeat split.
  - apply fs_open_app_keep, fs_open_app_keep, fs_open_app_self.
  - apply fs_open_app_keep, fs_open_app_self.
  - apply fs_open_app_self.
Qed.

Lemma ctor_unknown_version_witness :
  let '(p, fs', log) := Rinex_Printer_ctor [] "nav.nav" "obs.obs" "sbs.sbs" "2.12" in
  version p = None /\
  log = ["Unknown RINEX version " ++ "2.12" ++ " (must be 2.11 or 3.01)"] /\
  fs_lookup fs' "nav.nav" <> None /\ fs_lookup fs' "obs.obs" <> None /\
  fs_lookup fs' "sbs.sbs" <> None.
Proof.
  apply (ctor_unknown_version [] "nav.nav" "obs.obs" "sbs.sbs" "2.12");
    intro H; discriminate H.
Defined.

(** ** C8: signal strength *)

(** C8 (counterexample): [signalStrength] is not total. For a carrier to
    noise value of 6 * 2^31, [int(floor(snr / 6))] converts a double outside
    the range of [int], which is undefined behaviour. *)
Lemma signalStrength_not_total :
  signalStrength (inject_Z (6 * 2 ^ 31)) = None /\
  ~ (forall snr, exists v, signalStrength snr = Some v /\ 1 <= v <= 9).
Proof.
  split; [vm_compute; reflexivity|].
  intros H; destruct (H (inject_Z (6 * 2 ^ 31))) as [v [Hv _]].
  vm_compute in Hv; discriminate Hv.
Qed.

(** C8 (amended): for every input whose [floor(input / 6)] lies in the range
    of [int], [signalStrength] returns [floor(input / 6)] clamped to [1, 9],
    which lies in [1, 9]; 54.0 gives 9, 0.0 gives 1 and 30.0 gives 5. *)
Theorem signalStrength_clamp (snr : Q) :
  - 2 ^ 31 <= Qfloor (snr / 6) <= 2 ^ 31 - 1 ->
  signalStrength snr = Some (Z.min (Z.max (Qfloor (snr / 6)) 1) 9) /\
  1 <= Z.min (Z.max (Qfloor (snr / 6)) 1) 9 <= 9 /\
  signalStrength 54 = Some 9 /\ signalStrength 0 = Some 1 /\ signalStrength 30 = Some 5.
Proof.
  intros Hr; unfold signalStrength, double_to_int.
  rewrite (proj2 (andb_true_iff _ _)) by (split; apply Z.leb_le; lia).
  split; [reflexivity|]; split; [lia|].
  vm_compute; repeat split; reflexivity.
Qed.

Lemma signalStrength_clamp_witness :
  signalStrength 30 = Some (Z.min (Z.max (Qfloor (30 / 6)) 1) 9) /\
  1 <= Z.min (Z.max (Qfloor (30 / 6)) 1) 9 <= 9 /\
  signalStrength 54 = Some 9 /\ signalStrength 0 = Some 1 /\ signalStrength 30 = Some 5.
Proof. apply (signalStrength_clamp 30); vm_compute; split; discriminate. Defined.

(** ** C9: long version 2 epoch lines *)

(** C9 (code bug): in version 2 an epoch line longer than 80 columns is
    never written: [std::string(80 - line.size(), ' ')] wraps the size_t
    difference to a count above [max_size()], the constructor throws
    [std::length_error], which escapes [log_rinex_obs] before any line of the
    epoch is written. With a 10-character seconds field this happens from 17
    satellites on (16 satellites fill the 80 columns exactly). *)
Theorem obs_v2_long_epoch_throws
  (asString : Q -> nat -> string) (gps_iso_time : Z -> Q -> string)
  (p : Rinex_Printer) (eph : Gps_Ephemeris) (obs_time : Q)
  (pseudoranges : list (Z * Gnss_Synchro)) :
  is_version p 2 = true ->
  let line := obs_epoch_line_v2 asString p (gps_iso_time (i_GPS_week eph) obs_time)
                obs_time pseudoranges in
  (80 < String.length line)%nat -> Z.of_nat (String.length line) <= string_max_size ->
  log_rinex_obs asString gps_iso_time p eph obs_time pseudoranges = ([], Some length_error).
Proof.
  intros Hv line Hlong Hmax.
  pose proof (pad_to_80_spec line Hmax) as Hp.
  unfold log_rinex_obs; cbv zeta; rewrite Hv; fold line.
  destruct (pad_to_80 line) as [[]|l]; [reflexivity | lia].
Qed.

Lemma obs_v2_long_epoch_throws_witness :
  is_version (printer_of "2.11") 2 = true /\
  (80 < String.length (obs_epoch_line_v2 asString_fixed (printer_of "2.11")
          (compute_GPS_time_iso (i_GPS_week sample_eph) 100) 100 (sats_epoch 17)))%nat /\
  log_rinex_obs asString_fixed compute_GPS_time_iso (printer_of "2.11") sample_eph 100
    (sats_epoch 17) = ([], Some length_error).
Proof.
  split; [reflexivity|]; split; [vm_compute; lia|].
  apply (obs_v2_long_epoch_throws asString_fixed compute_GPS_time_iso (printer_of "2.11")
           sample_eph 100 (sats_epoch 17)); [reflexivity | vm_compute; lia | vm_compute; discriminate].
Defined.

(** ** The navigation record loop *)

Lemma nav_record_line_out doub2for gps_iso_time (p : Rinex_Printer) (line : string)
  (e : Gps_Ephemeris) : snd (nav_record doub2for gps_iso_time p line e) = "".
Proof. reflexivity. Qed.

Lemma nav_record_count doub2for gps_iso_time (p : Rinex_Printer) (line : string)
  (e : Gps_Ephemeris) :
  length (lines_of (fst (nav_record doub2for gps_iso_time p line e))) = 8%nat.
Proof. reflexivity. Qed.

Lemma lines_of_app (a b : list emitted) : lines_of (app a b) = app (lines_of a) (lines_of b).
Proof. apply map_app. Qed.

(** Each iteration leaves [line] empty, so each record is written from an
    empty [line]. *)
Lemma nav_loop_flat doub2for gps_iso_time (p : Rinex_Printer)
  (m : list (Z * Gps_Ephemeris)) :
  lines_of (nav_loop doub2for gps_iso_time p "" m) =
  flat_map (fun ke => lines_of (fst (nav_record doub2for gps_iso_time p "" (snd ke)))) m.
Proof.
  induction m as [|[k e] m IH]; [reflexivity|].
  cbn [nav_loop flat_map snd].
  pose proof (nav_record_line_out doub2for gps_iso_time p "" e) as Hout.
  destruct (nav_record doub2for gps_iso_time p "" e) as [es line'].
  cbn [snd fst] in *; subst line'.
  rewrite lines_of_app, IH; reflexivity.
Qed.

Lemma nth_error_flat_map_block {A B : Type} (f : A -> list B) (k : nat) (m : list A)
  (i j : nat) :
  (forall x, length (f x) = k) -> (j < k)%nat ->
  nth_error (flat_map f m) (k * i + j) =
  match nth_error m i with Some x => nth_error (f x) j | None => None end.
Proof.
  intros Hk Hj; revert i; induction m as [|x m IH]; intros [|i].
  - apply nth_error_None; simpl; lia.
  - apply nth_error_None; simpl; lia.
  - rewrite Nat.mul_0_r; simpl; apply nth_error_app1; rewrite Hk; lia.
  - simpl; rewrite nth_error_app2 by (rewrite Hk; lia).
    replace (k * S i + j - length (f x))%nat with (k * i + j)%nat
      by (rewrite Nat.mul_succ_r, Hk; lia).
    apply IH.
Qed.

(** ** C6: layout of the navigation records *)



(** ** C10: the decimal digit of the version 2 clock line *)

Lemma prn_rendering_len (prn : Z) :
  0 <= prn <= 99 -> String.length (rightJustify (int_to_string prn) 2) = 2%nat.
Proof.
  intros H; rewrite rj_len.
  destruct (Z.le_gt_cases prn 9).
  - rewrite int_to_string_len1 by lia; reflexivity.
  - rewrite int_to_string_len2 by lia; reflexivity.
Qed.

(** C10: in version 2, for every ephemeris of the map (the [i]-th in key
    order), the clock line that [log_rinex_nav] writes for it (line [8 i])
    has ".0" after the two seconds digits, whatever the timestamp holds
    after its seconds: the digit read from the timestamp is assigned to a
    [decimal] declared inside the [if] block, which shadows the outer one. The
    hypotheses on the PRN and on the timestamp's length place the seconds in
    columns 18-19. *)
Theorem log_rinex_nav_v2_decimal_zero (doub2for : Q -> nat -> nat -> string)
  (gps_iso_time : Z -> Q -> string) (fs : filesys) (navn obsn sbsn flag : string)
  (m : list (Z * Gps_Ephemeris)) (i : nat) (k : Z) (e : Gps_Ephemeris) :
  flag = "2.10" \/ flag = "2.11" ->
  nth_error m i = Some (k, e) ->
  0 <= i_satellite_PRN e <= 99 ->
  (15 <= String.length (gps_iso_time (i_GPS_week e) (d_TOW e)))%nat ->
  exists line,
    nth_error (lines_of (log_rinex_nav doub2for gps_iso_time
                           (fst (fst (Rinex_Printer_ctor fs navn obsn sbsn flag))) m))
      (8 * i) = Some line /\
    substr line 20 2 = ".0".
Proof.
  intros Hf Hi Hprn Hts.
  unfold log_rinex_nav; rewrite nav_loop_flat, <- (Nat.add_0_r (8 * i)).
  rewrite (nth_error_flat_map_block _ 8 m i 0)
    by first [intros; apply nav_record_count | lia].
  rewrite Hi; cbn [snd].
  pose proof (prn_rendering_len _ Hprn) as Hr.
  destruct Hf as [-> | ->]; unfold lines_of, nav_record, is_version; simpl;
    eexists; (split; [reflexivity|]);
    remember (rightJustify (int_to_string (i_satellite_PRN e)) 2) as r eqn:Er;
    remember (gps_iso_time (i_GPS_week e) (d_TOW e)) as ts eqn:Ets; clear Er Ets;
    (destruct r as [|r0 [|r1 [|r2 r]]]; simpl in Hr; try lia);
    do 15 (destruct ts as [|? ts]; simpl in Hts; [lia|]); destruct ts; reflexivity.
Qed.

Lemma log_rinex_nav_v2_decimal_zero_witness :
  exists line,
    nth_error (lines_of (log_rinex_nav sample_doub2for compute_GPS_time_iso
                           (fst (fst (Rinex_Printer_ctor [] "nav.nav" "obs.obs" "sbs.sbs"
                                        "2.11")))
                           [(5, sample_eph)]))
      (8 * 0) = Some line /\
    substr line 20 2 = ".0".
Proof.
  apply (log_rinex_nav_v2_decimal_zero sample_doub2for compute_GPS_time_iso [] "nav.nav"
           "obs.obs" "sbs.sbs" "2.11" [(5, sample_eph)] 0 5 sample_eph);
    [right; reflexivity | reflexivity | vm_compute; split; discriminate | vm_compute; lia].
Defined.

(** ** Observation lines *)

Lemma substring_app_skip (a b : string) (n m : nat) :
  (String.length a <= n)%nat ->
  String.substring n m (a ++ b) = String.substring (n - String.length a) m b.
Proof.
  revert n; induction a as [|c a IH]; intros n H; simpl in *.
  - now rewrite Nat.sub_0_r.
  - destruct n as [|n]; [lia|]; simpl; apply IH; lia.
Qed.

Lemma substring_app_prefix (a b : string) :
  String.substring 0 (String.length a) (a ++ b) = a.
Proof.
  induction a as [|c a IH]; simpl; [now destruct b | now rewrite IH].
Qed.

Lemma pad_to_80_short (line : string) :
  (String.length line <= 80)%nat ->
  pad_to_80 line = inr (line ++ spaces (80 - String.length line)).
Proof.
  unfold pad_to_80, string_max_size; intros H.
  rewrite (Z.mod_small (80 - Z.of_nat (String.length line))) by lia.
  rewrite (proj2 (Z.leb_le _ _)) by lia.
  do 3 f_equal; lia.
Qed.

Lemma contains_app_l (u s t : string) : contains s t -> contains (u ++ s) t.
Proof.
  intros [pre [post ->]]; exists (u ++ pre), post; apply sapp_assoc.
Qed.

Lemma contains_app_r (s u t : string) : contains s t -> contains (s ++ u) t.
Proof.
  intros [pre [post ->]]; exists pre, (post ++ u); rewrite <- !sapp_assoc; reflexivity.
Qed.

Lemma contains_cons (c : ascii) (s t : string) : contains s t -> contains (String c s) t.
Proof. apply (contains_app_l (String c EmptyString)). Qed.

(** A version 2 observation line whose fields fit is 80 columns, with the
    carrier phase in cycles ([phase / GPS_TWO_PI]) in columns 16 to 29 (counting
    from 1). *)
Lemma obs_line_v2_fields (asString : Q -> nat -> string) (s : Gnss_Synchro) :
  obs_fields_fit asString s ->
  String.length (obs_line_v2 asString s) = 80%nat /\
  substr (obs_line_v2 asString s) 15 14 =
  rightJustify (asString (Carrier_phase_rads s / GPS_TWO_PI)%Q 3%nat) 14.
Proof.
  intros (H1 & H2 & H3 & H4); unfold obs_line_v2, pad_short_80; cbv zeta; simpl Z.eqb;
    cbv iota.
  set (A := rightJustify (asString (Pseudorange_m s) 3%nat) 14).
  set (B := rightJustify (asString (Carrier_phase_rads s / GPS_TWO_PI)%Q 3%nat) 14).
  set (C := rightJustify (asString (Carrier_Doppler_hz s) 3%nat) 14).
  set (D := rightJustify (asString (CN0_dB_hz s) 3%nat) 14).
  assert (HA : String.length A = 14%nat) by (unfold A; rewrite rj_len; lia).
  assert (HB : String.length B = 14%nat) by (unfold B; rewrite rj_len; lia).
  assert (HC : String.length C = 14%nat) by (unfold C; rewrite rj_len; lia).
  assert (HD : String.length D = 14%nat) by (unfold D; rewrite rj_len; lia).
  assert (Hl : String.length (A ++ " " ++ B ++ C ++ D) = 57%nat)
    by (rewrite !slen_app, HA, HB, HC, HD; reflexivity).
  rewrite Hl; replace (57 <? 80)%nat with true by reflexivity; split.
  - rewrite slen_app, Hl, spaces_len; reflexivity.
  - unfold substr; rewrite <- sapp_assoc, substring_app_skip by lia; rewrite HA; simpl.
    rewrite <- sapp_assoc, <- HB; apply substring_app_prefix.
Qed.

(** ** C7: a version 2 epoch of PRN 3 and PRN 12 *)

(** C7 (counterexample): the observation lines are padded when shorter than
    80 columns but neither cut nor checked, so a wide field makes them
    longer: with a pseudorange of 2^113 m (rendered on 39 columns) the two
    observation lines of the epoch of PRN 3 and PRN 12 at time of week 100.0
    are 82 columns. *)
Lemma obs_v2_two_sats_wide_field :
  let r := log_rinex_obs asString_fixed compute_GPS_time_iso (printer_of "2.11")
             sample_eph 100 [(3, huge_sync); (12, huge_sync)] in
  map String.length (lines_of (fst r)) = [80; 82; 82]%nat /\ snd r = None.
Proof. vm_compute; split; reflexivity. Qed.

(** C7 (amended): in version 2, for an epoch of PRN 3 and PRN 12 at any
    time of week whose timestamp has its 13 date and time characters and
    whose seconds rendering fits the line, [log_rinex_obs] writes one epoch
    line of 80 columns whose satellite list reads "G03G12", followed by
    exactly two observation lines, one per satellite, and returns normally.
    When the four fields of an observation fit their 14 columns, its line is
    exactly 80 columns and its carrier-phase field (columns 16-29, counting
    from 1) is the phase in radians divided by [GPS_TWO_PI]. *)
Theorem log_rinex_obs_v2_two_sats (asString : Q -> nat -> string)
  (gps_iso_time : Z -> Q -> string) (fs : filesys) (navn obsn sbsn flag : string)
  (eph : Gps_Ephemeris) (obs_time : Q) (s3 s12 : Gnss_Synchro) :
  flag = "2.10" \/ flag = "2.11" ->
  (13 <= String.length (gps_iso_time (i_GPS_week eph) obs_time))%nat ->
  (String.length (asString (fmod obs_time 60) 7%nat) <= 52)%nat ->
  exists epoch,
    log_rinex_obs asString gps_iso_time (fst (fst (Rinex_Printer_ctor fs navn obsn sbsn flag)))
      eph obs_time [(3, s3); (12, s12)] =
      ([(true, epoch); (false, obs_line_v2 asString s3); (false, obs_line_v2 asString s12)],
       None) /\
    String.length epoch = 80%nat /\ contains epoch "G03G12" /\
    (obs_fields_fit asString s3 ->
     String.length (obs_line_v2 asString s3) = 80%nat /\
     substr (obs_line_v2 asString s3) 15 14 =
       rightJustify (asString (Carrier_phase_rads s3 / GPS_TWO_PI)%Q 3%nat) 14) /\
    (obs_fields_fit asString s12 ->
     String.length (obs_line_v2 asString s12) = 80%nat /\
     substr (obs_line_v2 asString s12) 15 14 =
       rightJustify (asString (Carrier_phase_rads s12 / GPS_TWO_PI)%Q 3%nat) 14).
Proof.
  intros Hf Hts Hsec.
  set (p := fst (fst (Rinex_Printer_ctor fs navn obsn sbsn flag))).
  assert (Hv2 : is_version p 2 = true) by (destruct Hf as [-> | ->]; reflexivity).
  assert (Hv3 : is_version p 3 = false) by (destruct Hf as [-> | ->]; reflexivity).
  assert (Hsys : map_get (satelliteSystem p) "GPS" = "G")
    by (destruct Hf as [-> | ->]; reflexivity).
  set (prs := [(3, s3); (12, s12)]).
  set (ts := gps_iso_time (i_GPS_week eph) obs_time) in *.
  set (line := obs_epoch_line_v2 asString p ts obs_time prs).
  assert (Hline : (String.length line <= 80)%nat /\ contains line "G03G12").
  { unfold line, obs_epoch_line_v2, prs, sat_id; cbv zeta; rewrite Hsys.
    set (sec := asString (fmod obs_time 60) 7%nat) in *; clearbody sec ts.
    do 13 (destruct ts as [|? ts]; simpl in Hts; [lia|]).
    assert (E0 : substr ts 0 0 = "") by (destruct ts; reflexivity).
    simpl; rewrite E0; split.
    - repeat match goal with |- context [if ?b then _ else _] => destruct b end;
        simpl; rewrite slen_app; simpl; lia.
    - repeat first [ exists "", ""; reflexivity | apply contains_cons
                   | apply contains_app_l ]. }
  destruct Hline as [Hlen Hcont].
  unfold log_rinex_obs; cbv zeta.
  change (gps_iso_time (i_GPS_week eph) obs_time) with ts.
  change (obs_epoch_line_v2 asString p ts obs_time prs) with line.
  rewrite Hv2, (pad_to_80_short line Hlen), Hv3.
  clearbody line.
  exists (line ++ spaces (80 - String.length line)); split; [reflexivity|].
  split; [rewrite slen_app, spaces_len; lia|].
  split; [apply contains_app_r, Hcont|].
  split; [exact (obs_line_v2_fields asString s3) | exact (obs_line_v2_fields asString s12)].
Qed.

Lemma log_rinex_obs_v2_two_sats_witness :
  exists epoch,
    log_rinex_obs asString_fixed compute_GPS_time_iso
      (fst (fst (Rinex_Printer_ctor [] "nav.nav" "obs.obs" "sbs.sbs" "2.11")))
      sample_eph 100 [(3, sample_sync); (12, sample_sync)] =
      ([(true, epoch); (false, obs_line_v2 asString_fixed sample_sync);
        (false, obs_line_v2 asString_fixed sample_sync)], None) /\
    String.length epoch = 80%nat /\ contains epoch "G03G12" /\
    (obs_fields_fit asString_fixed sample_sync ->
     String.length (obs_line_v2 asString_fixed sample_sync) = 80%nat /\
     substr (obs_line_v2 asString_fixed sample_sync) 15 14 =
       rightJustify (asString_fixed (Carrier_phase_rads sample_sync / GPS_TWO_PI)%Q 3%nat) 14) /\
    (obs_fields_fit asString_fixed sample_sync ->
     String.length (obs_line_v2 asString_fixed sample_sync) = 80%nat /\
     substr (obs_line_v2 asString_fixed sample_sync) 15 14 =
       rightJustify (asString_fixed (Carrier_phase_rads sample_sync / GPS_TWO_PI)%Q 3%nat) 14).
Proof.
  apply (log_rinex_obs_v2_two_sats asString_fixed compute_GPS_time_iso [] "nav.nav" "obs.obs"
           "sbs.sbs" "2.11" sample_eph 100 sample_sync sample_sync);
    [right; reflexivity | vm_compute; lia | vm_compute; lia].
Defined.

(** ** C1: the length of the lines *)

Lemma int_to_string_len4 (z : Z) :
  2010 <= z <= 2099 -> String.length (int_to_string z) = 4%nat.
Proof.
  intros Hz; apply Nat.eqb_eq.
  apply (all_in_sound 2010 90 (fun z => Nat.eqb (String.length (int_to_string z)) 4));
    [vm_compute; reflexivity | lia].
Qed.

Lemma int_to_string_le3 (z : Z) : 0 <= z <= 999 -> (String.length (int_to_string z) <= 3)%nat.
Proof.
  intros Hz; destruct (Z.le_gt_cases z 9); [rewrite int_to_string_len1 by lia; lia|].
  destruct (Z.le_gt_cases z 99); [rewrite int_to_string_len2 by lia; lia|].
  rewrite int_to_string_len3 by lia; lia.
Qed.

Lemma int_to_string_le2 (z : Z) : 0 <= z <= 99 -> (String.length (int_to_string z) <= 2)%nat.
Proof.
  intros Hz; destruct (Z.le_gt_cases z 9).
  - rewrite int_to_string_len1 by lia; lia.
  - rewrite int_to_string_len2 by lia; lia.
Qed.

Lemma lead_len (pre : string) (z : Z) :
  String.length pre = 1%nat -> 0 <= z <= 99 ->
  String.length ((if z <? 10 then pre else "") ++ int_to_string z) = 2%nat.
Proof.
  intros Hp Hz; rewrite slen_app; destruct (Z.ltb_spec z 10); rewrite ?Hp.
  - rewrite int_to_string_len1 by lia; reflexivity.
  - rewrite int_to_string_len2 by lia; reflexivity.
Qed.

Lemma two_digits_len (z : Z) : 0 <= z <= 99 -> String.length (two_digits z) = 2%nat.
Proof. apply lead_len; reflexivity. Qed.

Lemma month_abbrev_len (k : Z) : 0 <= k <= 11 -> String.length (month_abbrev k) = 3%nat.
Proof.
  intros Hk; apply Nat.eqb_eq.
  apply (all_in_sound 0 12 (fun k => Nat.eqb (String.length (month_abbrev k)) 3));
    [vm_compute; reflexivity | lia].
Qed.

Lemma iso_date_len (y m d : Z) :
  2010 <= y <= 2099 -> 1 <= m <= 12 -> 1 <= d <= 31 -> String.length (iso_date y m d) = 8%nat.
Proof.
  intros Hy Hm Hd; unfold iso_date; rewrite !slen_app, !rjc_len, int_to_string_len4 by lia.
  pose proof (int_to_string_le2 m ltac:(lia)); pose proof (int_to_string_le2 d ltac:(lia)); lia.
Qed.

Lemma concat_len (l : list string) :
  String.length (String.concat "" l) = list_sum (map String.length l).
Proof.
  induction l as [|a l IH]; [reflexivity|].
  destruct l as [|b l]; simpl; [lia|].
  simpl in IH; rewrite slen_app, IH; reflexivity.
Qed.

Lemma sat_ids_len (p : Rinex_Printer) (prs : list (Z * Gnss_Synchro)) :
  String.length (map_get (satelliteSystem p) "GPS") = 1%nat ->
  Forall (fun ke => 0 <= fst ke <= 99) prs ->
  String.length (String.concat "" (map (fun '(prn, _) => sat_id p prn) prs))
  = (3 * length prs)%nat.
Proof.
  intros Hg Hall; rewrite concat_len, map_map.
  induction Hall as [|[prn s] prs Hk _ IH]; [reflexivity|].
  unfold list_sum in *; cbn [map fold_right length]; rewrite IH.
  unfold sat_id; rewrite slen_app, Hg, lead_len by (reflexivity || exact Hk); lia.
Qed.

Lemma hex_bytes_len (bs : list Byte.byte) : String.length (hex_bytes bs) = (3 * length bs)%nat.
Proof.
  unfold hex_bytes; rewrite concat_len, map_map.
  induction bs as [|b bs IH]; [reflexivity|].
  unfold list_sum in *; cbn [map fold_right length]; rewrite IH.
  unfold hex2, hex_digit; rewrite !slen_app; simpl; lia.
Qed.

Lemma max_size_value : string_max_size = 4611686018427387903.
Proof. reflexivity. Qed.

Ltac len_norm :=
  repeat progress (cbn [String.length append Nat.max] in *;
    rewrite ?slen_app, ?lj_len, ?rj_len, ?rjc_len, ?spaces_len, ?rep_len, ?substr_len in *).

Ltac split_ifs :=
  repeat match goal with |- context [if ?b then _ else _] => destruct b end.

Lemma compute_GPS_time_iso_len (week : Z) (t : Q) :
  (15 <= String.length (compute_GPS_time_iso week t))%nat.
Proof.
  unfold compute_GPS_time_iso; cbv zeta.
  destruct (civil_from_days _) as [[y m] d]; unfold iso_date; split_ifs; len_norm; lia.
Qed.

(** C1 (code bug): the second data line of an SBAS record renders the bytes
    18 to 35 of the message (loop [i < 36]) but is padded with a fixed 31
    spaces, which fit 14 bytes only: a message of 36 bytes gives a third line
    of 92 columns. [lengthCheck] logs the diagnostic and the line is written
    anyway. *)
Lemma sbs_record_36_bytes :
  map String.length (lines_of (log_rinex_sbs asString_fixed sample_asFixWidthString
                                 (sample_sbas 36))) = [80; 80; 92]%nat /\
  log_of (log_rinex_sbs asString_fixed sample_asFixWidthString (sample_sbas 36)) =
  ["Bad defined RINEX line: 92 characters (must be 80)"].
Proof. split; vm_compute; reflexivity. Qed.

Section LineLengths.

Variable doub2for : Q -> nat -> nat -> string.
Variable asString : Q -> nat -> string.
Variable lexical_cast_double : Q -> string.
Variable asFixWidthString : Z -> nat -> ascii -> string.
Variable gps_iso_time : Z -> Q -> string.

Hypothesis doub2for_width : forall x w e, String.length (doub2for x w e) = w.
Hypothesis asFixWidthString_width : forall z w c, String.length (asFixWidthString z w c) = w.
Hypothesis gps_iso_time_len : forall week t, (15 <= String.length (gps_iso_time week t))%nat.

Ltac clock_facts c :=
  match goal with Hc : clock_ok c |- _ =>
    destruct Hc as (Hy & Hm & Hd & Hh & Hmi & Hs & Hty & Htm & Htd);
    pose proof (two_digits_len (utc_hour c) ltac:(lia));
    pose proof (two_digits_len (utc_minute c) ltac:(lia));
    pose proof (two_digits_len (utc_second c) ltac:(lia));
    pose proof (two_digits_len (utc_day c) ltac:(lia));
    pose proof (two_digits_len (utc_month c) ltac:(lia));
    pose proof (month_abbrev_len (utc_month c - 1) ltac:(lia));
    pose proof (int_to_string_le2 (utc_day c) ltac:(lia));
    pose proof (int_to_string_len2 (utc_year c - 2000) ltac:(lia));
    pose proof (iso_date_len (today_year c) (today_month c) (today_day c)
                  ltac:(lia) ltac:(lia) ltac:(lia))
  end.

Lemma nav_header_80 (fs : filesys) (navn obsn sbsn flag : string) (c : Clock)
  (iono : Gps_Iono) (utc : Gps_Utc_Model) :
  supported flag -> clock_ok c -> utc_fits lexical_cast_double utc ->
  all80 (lines_of (rinex_nav_header doub2for lexical_cast_double
                     (fst (fst (Rinex_Printer_ctor fs navn obsn sbsn flag))) c iono utc)).
Proof.
  intros Hf Hc Hu; clock_facts c; destruct Hu as (U1 & U2 & U3 & U4 & U5 & U6).
  unfold all80, rinex_nav_header, getLocalTime, is_version.
  destruct Hf as [-> | [-> | ->]];
    cbn -[leftJustify rightJustify two_digits month_abbrev int_to_string iso_date spaces append];
    repeat constructor; len_norm; rewrite ?doub2for_width; len_norm; lia.
Qed.

Lemma sbs_header_80 (c : Clock) : clock_ok c -> all80 (lines_of (rinex_sbs_header c)).
Proof.
  intros Hc; clock_facts c; unfold all80, rinex_sbs_header.
  cbn -[leftJustify rightJustify two_digits month_abbrev int_to_string iso_date spaces append].
  repeat constructor; len_norm; lia.
Qed.


Lemma obs_header_80 (fs : filesys) (navn obsn sbsn flag : string) (c : Clock)
  (user : string) (eph : Gps_Ephemeris) (t : Q) :
  supported flag -> clock_ok c -> (String.length user <= 20)%nat ->
  (String.length (asString 0 4) <= 14)%nat ->
  (String.length (asString (fmod t 60) 7) <= 13)%nat ->
  all80 (lines_of (rinex_obs_header asString gps_iso_time
                     (fst (fst (Rinex_Printer_ctor fs navn obsn sbsn flag))) c user eph t)).
Proof.
  intros Hf Hc Hu H0 Ht; clock_facts c.
  unfold all80, rinex_obs_header, getLocalTime, is_version.
  destruct Hf as [-> | [-> | ->]];
    cbn -[leftJustify rightJustify two_digits month_abbrev int_to_string iso_date spaces
          append fmod].
  all: repeat constructor.
  all: len_norm.
  all: lia.
Qed.


Lemma nav_record_80 (fs : filesys) (navn obsn sbsn flag : string) (e : Gps_Ephemeris) :
  supported flag -> 0 <= i_satellite_PRN e <= 99 ->
  all80 (lines_of (fst (nav_record doub2for gps_iso_time
                          (fst (fst (Rinex_Printer_ctor fs navn obsn sbsn flag))) "" e))).
Proof.
  intros Hf Hprn.
  pose proof (gps_iso_time_len (i_GPS_week e) (d_TOW e)).
  pose proof (int_to_string_le2 _ Hprn).
  pose proof (lead_len "0" _ eq_refl Hprn) as Hl.
  unfold all80, nav_record, orbit_open, orbit_close, four_D, D18, is_version.
  destruct Hf as [-> | [-> | ->]];
    cbn -[leftJustify rightJustify int_to_string spaces append substr].
  all: repeat constructor.
  all: len_norm; rewrite ?doub2for_width; len_norm; lia.
Qed.

Lemma nav_records_80 (fs : filesys) (navn obsn sbsn flag : string)
  (m : list (Z * Gps_Ephemeris)) :
  supported flag -> Forall (fun ke => 0 <= i_satellite_PRN (snd ke) <= 99) m ->
  all80 (lines_of (log_rinex_nav doub2for gps_iso_time
                     (fst (fst (Rinex_Printer_ctor fs navn obsn sbsn flag))) m)).
Proof.
  intros Hf Hm; unfold log_rinex_nav; rewrite nav_loop_flat; unfold all80.
  induction Hm as [|ke m Hk _ IH]; [constructor|].
  cbn [flat_map]; apply Forall_app; split; [apply nav_record_80; assumption | exact IH].
Qed.

Lemma obs_line_v3_80 (p : Rinex_Printer) (prn : Z) (s : Gnss_Synchro) :
  String.length (map_get (satelliteSystem p) "GPS") = 1%nat -> 0 <= prn <= 99 ->
  (String.length (asString (Pseudorange_m s) 3) <= 14)%nat ->
  String.length (obs_line_v3 asString p prn s) = 80%nat.
Proof.
  intros Hg Hprn Hpr; pose proof (lead_len "0" _ eq_refl Hprn) as Hl.
  assert (E : signalStrength 54 = Some 9) by (vm_compute; reflexivity).
  unfold obs_line_v3, sat_id; rewrite E; cbv zeta; apply pad_short_80_len.
  cbn -[leftJustify rightJustify int_to_string spaces append substr].
  pose proof (int_to_string_len1 9 ltac:(lia)); len_norm; lia.
Qed.

Lemma obs_records_80 (fs : filesys) (navn obsn sbsn flag : string) (eph : Gps_Ephemeris)
  (t : Q) (prs : list (Z * Gnss_Synchro)) :
  supported flag -> (String.length (asString (fmod t 60) 7) <= 13)%nat ->
  (length prs < 1000)%nat -> Forall (obs_ok asString) prs ->
  all80 (lines_of (fst (log_rinex_obs asString gps_iso_time
                          (fst (fst (Rinex_Printer_ctor fs navn obsn sbsn flag))) eph t prs))).
Proof.
  intros Hf Hs Hn Hall.
  assert (Hprn : Forall (fun ke => 0 <= fst ke <= 99) prs)
    by (eapply Forall_impl; [|exact Hall]; intros ke [H _]; exact H).
  pose proof (int_to_string_le3 (Z.of_nat (length prs)) ltac:(lia)) as Hnsat.
  set (p := fst (fst (Rinex_Printer_ctor fs navn obsn sbsn flag))).
  assert (Hg : String.length (map_get (satelliteSystem p) "GPS") = 1%nat)
    by (destruct Hf as [-> | [-> | ->]]; reflexivity).
  pose proof (sat_ids_len p prs Hg Hprn) as Hsat.
  assert (Hv : (is_version p 2 = true /\ is_version p 3 = false) \/
               (is_version p 2 = false /\ is_version p 3 = true))
    by (destruct Hf as [-> | [-> | ->]]; [left | left | right]; split; reflexivity).
  clearbody p; clear Hf; unfold all80, log_rinex_obs; cbv zeta.
  destruct Hv as [[Hv2 Hv3] | [Hv2 Hv3]]; rewrite Hv2.
  - set (line := obs_epoch_line_v2 asString p (gps_iso_time (i_GPS_week eph) t) t prs).
    assert (Hb : (String.length line <= 5000)%nat)
      by (unfold line, obs_epoch_line_v2; cbv zeta; split_ifs; len_norm; lia).
    pose proof (pad_to_80_spec line ltac:(rewrite max_size_value; lia)) as Hp.
    destruct (pad_to_80 line) as [ex | l]; [constructor|].
    cbv beta iota; rewrite Hv3; cbn [fst]; unfold lines_of; rewrite map_cons; constructor; [tauto|].
    rewrite map_map; apply Forall_map; eapply Forall_impl; [|exact Hall].
    intros [k s] [_ Hfit]; exact (proj1 (obs_line_v2_fields asString s Hfit)).
  - rewrite Hv3.
    match goal with |- context [pad_to_80 ?l] => set (line := l) end.
    assert (Hb : (String.length line <= 5000)%nat)
      by (unfold line; split_ifs; len_norm; lia).
    pose proof (pad_to_80_spec line ltac:(rewrite max_size_value; lia)) as Hp.
    destruct (pad_to_80 line) as [ex | l]; [constructor|].
    cbn [fst]; unfold lines_of; rewrite app_nil_l, map_cons; constructor; [tauto|].
    rewrite map_map; apply Forall_map; eapply Forall_impl; [|exact Hall].
    intros [k s] [Hk (Hfit & _)]; exact (obs_line_v3_80 p k s Hg Hk Hfit).
Qed.


Lemma sbs_record_80 (m : Sbas_Raw_Msg) :
  sbs_ok asString m -> all80 (lines_of (log_rinex_sbs asString asFixWidthString m)).
Proof.
  destruct m as [prn rx mt msg]; unfold sbs_ok;
    cbn [get_prn get_msg_type get_msg rx_gps_time]; intros (Hp & Hmt & Hl & Hrx).
  pose proof (int_to_string_len3 prn Hp).
  pose proof (lead_len " " mt eq_refl Hmt).
  pose proof (hex_bytes_len (firstn 18 msg)).
  pose proof (hex_bytes_len (firstn 18 (skipn 18 msg))).
  rewrite ?length_firstn, ?length_skipn, Hl in *.
  unfold all80, log_rinex_sbs; destruct rx as [[w s]|];
    cbn -[leftJustify rightJustify rightJustifyc int_to_string spaces append hex_bytes
          firstn skipn to_date_time sbs_second_value sbs_gps_tow].
  all: repeat constructor.
  all: len_norm; rewrite ?asFixWidthString_width; len_norm; lia.
Qed.

(** X13: for a printer built with version "2.10", "2.11" or
    "3.01", every line of the navigation, observation and SBAS headers and
    records is 80 characters, provided the renderings fit their fields:
    [doub2for] and [asFixWidthString] give exactly the requested width and
    the timestamp has at least 15 characters (section hypotheses), the clock
    is a valid date of 2010-2099, the UTC parameters, the user name, the
    positions and the seconds fit their columns, the GPS PRNs have at most
    two digits, an epoch has fewer than 1000 satellites whose four
    observations fit 14 columns, and the SBAS message is a 32-byte block of
    a three-digit PRN. An observation epoch line is padded to 80 or, when
    longer, makes the call throw before anything is written. *)
Theorem rinex_lines_80 (fs : filesys) (navn obsn sbsn flag : string) (c : Clock)
  (iono : Gps_Iono) (utc : Gps_Utc_Model) (eph_map : list (Z * Gps_Ephemeris))
  (user : string) (eph : Gps_Ephemeris) (t_first obs_time : Q)
  (prs : list (Z * Gnss_Synchro)) (m : Sbas_Raw_Msg) :
  supported flag -> clock_ok c -> utc_fits lexical_cast_double utc ->
  Forall (fun ke => 0 <= i_satellite_PRN (snd ke) <= 99) eph_map ->
  (String.length user <= 20)%nat ->
  (String.length (asString 0 4) <= 14)%nat ->
  (String.length (asString (fmod t_first 60) 7) <= 13)%nat ->
  (String.length (asString (fmod obs_time 60) 7) <= 13)%nat ->
  (length prs < 1000)%nat -> Forall (obs_ok asString) prs -> sbs_ok asString m ->
  let p := fst (fst (Rinex_Printer_ctor fs navn obsn sbsn flag)) in
  all80 (lines_of (rinex_nav_header doub2for lexical_cast_double p c iono utc)) /\
  all80 (lines_of (log_rinex_nav doub2for gps_iso_time p eph_map)) /\
  all80 (lines_of (rinex_obs_header asString gps_iso_time p c user eph t_first)) /\
  all80 (lines_of (fst (log_rinex_obs asString gps_iso_time p eph obs_time prs))) /\
  all80 (lines_of (rinex_sbs_header c)) /\
  all80 (lines_of (log_rinex_sbs asString asFixWidthString m)).
Proof.
  intros Hf Hc Hu Hnav Huser Hpos Hfirst Hobs Hn Hprs Hsbs p.
  split; [apply nav_header_80; assumption|].
  split; [apply nav_records_80; assumption|].
  split; [apply obs_header_80; assumption|].
  split; [apply obs_records_80; assumption|].
  split; [apply sbs_header_80; assumption|].
  apply sbs_record_80; assumption.
Qed.

End LineLengths.

Lemma rinex_lines_80_witness :
  let p := fst (fst (Rinex_Printer_ctor [] "nav.nav" "obs.obs" "sbs.sbs" "2.11")) in
  all80 (lines_of (rinex_nav_header sample_doub2for sample_lexical_cast_double p
                     sample_clock sample_iono sample_utc)) /\
  all80 (lines_of (log_rinex_nav sample_doub2for compute_GPS_time_iso p [(5, sample_eph)])) /\
  all80 (lines_of (rinex_obs_header asString_fixed compute_GPS_time_iso p sample_clock
                     "user" sample_eph 100)) /\
  all80 (lines_of (fst (log_rinex_obs asString_fixed compute_GPS_time_iso p sample_eph 100
                          [(3, sample_sync); (12, sample_sync)]))) /\
  all80 (lines_of (rinex_sbs_header sample_clock)) /\
  all80 (lines_of (log_rinex_sbs asString_fixed sample_asFixWidthString (sample_sbas 32))).
Proof.
  apply (rinex_lines_80 sample_doub2for asString_fixed sample_lexical_cast_double
           sample_asFixWidthString compute_GPS_time_iso
           (fun x w e => fit_right_len _ w _) (fun z w c => fit_right_len _ w c)
           compute_GPS_time_iso_len [] "nav.nav" "obs.obs" "sbs.sbs" "2.11" sample_clock
           sample_iono sample_utc [(5, sample_eph)] "user" sample_eph 100 100
           [(3, sample_sync); (12, sample_sync)] (sample_sbas 32)).
  - right; left; reflexivity.
  - unfold clock_ok; simpl; lia.
  - unfold utc_fits; vm_compute; repeat split; lia.
  - repeat constructor; simpl; lia.
  - simpl; lia.
  - vm_compute; lia.
  - vm_compute; lia.
  - vm_compute; lia.
  - simpl; lia.
  - repeat constructor; simpl; try lia; unfold obs_fields_fit; vm_compute; repeat split; lia.
  - unfold sbs_ok; split; [vm_compute; split; discriminate|].
    split; [vm_compute; split; discriminate|].
    split; [vm_compute; reflexivity|].
    vm_compute; lia.
Defined.

(** ** Calendar of [to_date_time] *)

Lemma wrap32_id (z : Z) : - 2 ^ 31 <= z <= 2 ^ 31 - 1 -> wrap32 z = z.
Proof. intros H; unfold wrap32; rewrite Z.mod_small; lia. Qed.

Lemma leb_days (K D r : Z) :
  0 <= r < secs_per_day -> (K * secs_per_day <=? D * secs_per_day + r) = (K <=? D).
Proof.
  unfold secs_per_day; intros Hr.
  destruct (Z.leb_spec (K * (24 * 60 * 60)) (D * (24 * 60 * 60) + r));
    destruct (Z.leb_spec K D); nia.
Qed.

Lemma leb_days0 (K D : Z) : (K * secs_per_day <=? D * secs_per_day) = (K <=? D).
Proof.
  rewrite <- (Z.add_0_r (D * secs_per_day)); apply leb_days; unfold secs_per_day; lia.
Qed.

Lemma year_loop_shift (fuel : nat) (y D r : Z) :
  0 <= r < secs_per_day ->
  exists y' D' leap,
    year_loop fuel y (D * secs_per_day) = (y', D' * secs_per_day, leap) /\
    year_loop fuel y (D * secs_per_day + r) = (y', D' * secs_per_day + r, leap).
Proof.
  intros Hr; revert y D; induction fuel as [|f IH]; intros y D; cbn [year_loop].
  - exists y, D, (is_leap y); split; reflexivity.
  - set (K := if is_leap y then 366 else 365).
    assert (Hs : (if is_leap y then secs_per_leap_year else secs_per_normal_year)
                 = K * secs_per_day) by (unfold K; destruct (is_leap y); reflexivity).
    rewrite Hs, leb_days by exact Hr.
    rewrite leb_days0.
    destruct (K <=? D).
    + destruct (IH (y + 1) (D - K)) as (y' & D' & leap & E1 & E2).
      exists y', D', leap.
      replace (D * secs_per_day - K * secs_per_day) with ((D - K) * secs_per_day) by lia.
      replace (D * secs_per_day + r - K * secs_per_day) with ((D - K) * secs_per_day + r) by lia.
      split; assumption.
    + exists y, D, (is_leap y); split; reflexivity.
Qed.

Lemma month_loop_shift (fuel : nat) (leap : bool) (m D r : Z) :
  0 <= r < secs_per_day ->
  exists m' D',
    month_loop fuel leap m (D * secs_per_day) = (m', D' * secs_per_day) /\
    month_loop fuel leap m (D * secs_per_day + r) = (m', D' * secs_per_day + r).
Proof.
  intros Hr; revert m D; induction fuel as [|f IH]; intros m D; cbn [month_loop].
  - exists m, D; split; reflexivity.
  - set (K := nth (Z.to_nat (m - 1)) days_per_month 0 + (if leap && (m =? 2) then 1 else 0)).
    assert (Hs : nth (Z.to_nat (m - 1)) days_per_month 0 * secs_per_day
                 + (if leap && (m =? 2) then secs_per_day else 0) = K * secs_per_day)
      by (unfold K; destruct (leap && (m =? 2)); lia).
    rewrite Hs, leb_days by exact Hr.
    rewrite leb_days0.
    destruct (K <=? D).
    + destruct (IH (m + 1) (D - K)) as (m' & D' & E1 & E2).
      exists m', D'.
      replace (D * secs_per_day - K * secs_per_day) with ((D - K) * secs_per_day) by lia.
      replace (D * secs_per_day + r - K * secs_per_day) with ((D - K) * secs_per_day + r) by lia.
      split; assumption.
    + exists m, D; split; reflexivity.
Qed.

Lemma day_check_all (D : Z) : 5 <= D <= 24855 -> day_check D = true.
Proof.
  intros HD.
  apply (all_in_sound 5 (Z.to_nat 24851) day_check); [vm_compute; reflexivity|].
  rewrite Z2Nat.id by lia; lia.
Qed.

Lemma to_date_time_reference (gps_week gps_tow : Z) :
  0 <= gps_week -> 0 <= gps_tow ->
  gps_week * secs_per_week + gps_tow + 5 * secs_per_day <= 2 ^ 31 - 1 ->
  to_date_time gps_week gps_tow = reference_date_time (gps_week * secs_per_week + gps_tow).
Proof.
  intros Hw Ht Hmax.
  set (secs := gps_week * secs_per_week + gps_tow) in *.
  assert (Hspd : secs_per_day = 86400) by reflexivity.
  assert (Hspw : secs_per_week = 604800) by reflexivity.
  unfold to_date_time.
  rewrite (wrap32_id (gps_week * secs_per_week)) by lia.
  fold secs; rewrite (wrap32_id secs) by lia.
  rewrite (wrap32_id (secs + 5 * secs_per_day)) by lia.
  set (D := (secs + 5 * secs_per_day) / secs_per_day).
  set (r := (secs + 5 * secs_per_day) mod secs_per_day).
  assert (Hr : 0 <= r < secs_per_day) by (unfold r; apply Z.mod_pos_bound; lia).
  assert (Hdec : secs + 5 * secs_per_day = D * secs_per_day + r)
    by (unfold D, r; rewrite (Z.mul_comm (_ / _) secs_per_day); apply Z.div_mod; lia).
  clearbody D r.
  assert (HD : 5 <= D <= 24855) by (rewrite Hspd in *; lia).
  assert (Hfuel : (D * secs_per_day + r) / secs_per_normal_year
                  = D * secs_per_day / secs_per_normal_year).
  { unfold secs_per_normal_year; rewrite Hspd in *.
    rewrite (Z.mul_comm 365 86400), <- !Z.div_div by lia.
    rewrite Z.div_mul by lia.
    replace ((D * 86400 + r) / 86400) with D; [reflexivity|].
    apply Z.div_unique with r; [left|];lia. }
  pose proof (day_check_all D HD) as Hc; unfold day_check in Hc.
  rewrite Hdec, Hfuel.
  destruct (year_loop_shift (Z.to_nat (D * secs_per_day / secs_per_normal_year + 1))
              1980 D r Hr) as (y & D1 & leap & E1 & E2).
  rewrite E1 in Hc; rewrite E2.
  destruct (month_loop_shift 12 leap 1 D1 r Hr) as (m & D2 & F1 & F2).
  rewrite F1 in Hc; rewrite F2.
  assert (Hs : secs / secs_per_day = D - 5 /\ secs mod secs_per_day = r).
  { rewrite Hspd in *; split.
    - symmetry; apply Z.div_unique with r; [left|]; lia.
    - symmetry; apply Z.mod_unique with (D - 5); [left|]; lia. }
  unfold reference_date_time; destruct Hs as [-> ->].
  replace (gps_epoch_days + (D - 5)) with (3652 + D) by (unfold gps_epoch_days; lia).
  destruct (civil_from_days (3652 + D)) as [[cy cm] cd].
  apply andb_prop in Hc as [Hc H4]; apply andb_prop in Hc as [Hc H3];
    apply andb_prop in Hc as [H1 H2].
  apply Z.eqb_eq in H1, H2, H4; apply Z.leb_le in H3.
  rewrite Hspd in *.
  rewrite Z.div_mul in H4 by lia.
  assert (Hq : Z.quot (D2 * 86400 + r) 86400 = D2).
  { rewrite Z.quot_div_nonneg by lia; symmetry; apply Z.div_unique with r; [left|]; lia. }
  assert (Hrem : Z.rem (D2 * 86400 + r) 86400 = r).
  { rewrite Z.rem_mod_nonneg by lia; symmetry; apply Z.mod_unique with D2; [left|]; lia. }
  rewrite Hq, Hrem.
  assert (H36 : 0 <= r mod 3600 < 3600) by (apply Z.mod_pos_bound; lia).
  rewrite (Z.quot_div_nonneg r 3600), (Z.rem_mod_nonneg r 3600) by lia.
  rewrite (Z.quot_div_nonneg (r mod 3600) 60), (Z.rem_mod_nonneg (r mod 3600) 60) by lia.
  rewrite (Z.mod_mod_divide r 3600 60) by (exists 60; reflexivity).
  rewrite H1, H2, <- H4; reflexivity.
Qed.

(** X1: for every non-negative week and time of week up to the 32-bit
    limit of [to_date_time]'s second counter, the date and time it computes
    are the proleptic Gregorian calendar date and time of the instant, counted
    from 1980-01-06 00:00:00 *)
Theorem to_date_time_matches_reference (gps_week gps_tow : Z) :
  0 <= gps_week -> 0 <= gps_tow ->
  gps_week * secs_per_week + gps_tow + 5 * secs_per_day <= 2 ^ 31 - 1 ->
  to_date_time gps_week gps_tow = reference_date_time (gps_week * secs_per_week + gps_tow).
Proof.
  intros Hw Ht Hmax; exact (to_date_time_reference gps_week gps_tow Hw Ht Hmax).
Qed.

Lemma to_date_time_matches_reference_witness :
  to_date_time 1200 345600 = reference_date_time (1200 * secs_per_week + 345600).
Proof.
  apply to_date_time_matches_reference; vm_compute; congruence.
Defined.

(** ** Instants and ISO timestamps *)

Lemma Qtrunc_int_ms (a : Z) :
  0 <= a -> Qtrunc (inject_Z a * 1000) = a * 1000.
Proof.
  intros Ha; unfold Qtrunc.
  assert (E : Qle_bool 0 (inject_Z a * 1000) = true).
  { apply Qle_bool_iff; unfold Qle; simpl; lia. }
  rewrite E; unfold Qfloor; simpl; apply Z.div_1_r.
Qed.

Lemma div_min_mod (x : Z) : 0 <= x -> (x / 60) mod 60 = (x mod 3600) / 60.
Proof.
  intros Hx.
  rewrite Z.mod_eq by lia; rewrite (Z.mod_eq x 3600) by lia.
  rewrite Z.div_div by lia; change (60 * 60) with 3600.
  replace (x - 3600 * (x / 3600)) with (x + (- (60 * (x / 3600))) * 60) by lia.
  rewrite Z.div_add by lia; lia.
Qed.

(** X3: for a week number below 1024 (the broadcast week, modulo 1024) and
    a whole non-negative time of week, the ISO timestamp of [compute_GPS_time]
    is the date and time [to_date_time] gives for the same week plus 1024
    (weeks counted from 1980-01-06), written as YYYYMMDDTHHMMSS: the two time
    conversions of the printer agree while the instant stays below the 32-bit
    limit of [to_date_time]. *)
Theorem compute_GPS_time_iso_date (week t : Z) :
  0 <= week < 1024 -> 0 <= t ->
  (week + 1024) * secs_per_week + t + 5 * secs_per_day <= 2 ^ 31 - 1 ->
  compute_GPS_time_iso week (inject_Z t) =
  (let dt := to_date_time (week + 1024) t in
   let pad2 z := rightJustifyc (int_to_string z) 2 "0" in
   iso_date (dt_year dt) (dt_month dt) (dt_day dt) ++ "T" ++ pad2 (dt_hour dt)
   ++ pad2 (dt_minute dt) ++ pad2 (dt_second dt)).
Proof.
  intros Hw Ht Hmax.
  rewrite to_date_time_reference by lia.
  unfold compute_GPS_time_iso, reference_date_time; cbv zeta.
  rewrite Z.rem_small by lia.
  set (S := t + 604800 * week).
  assert (HS : 0 <= S) by lia.
  replace ((inject_Z t + inject_Z (604800 * week)) * 1000)%Q with (inject_Z S * 1000)%Q
    by (unfold S; rewrite inject_Z_plus; reflexivity).
  rewrite Qtrunc_int_ms by exact HS.
  assert (Hsecs : (week + 1024) * secs_per_week + t = S + 7168 * secs_per_day)
    by (unfold S, secs_per_week, secs_per_day; lia).
  rewrite Hsecs.
  rewrite Z.div_add, Z.mod_add by (unfold secs_per_day; lia).
  set (X := S mod secs_per_day).
  assert (HX : 0 <= X < 86400) by (unfold X; apply Z.mod_pos_bound; reflexivity).
  assert (Hdays : (10825 * 86400000 + S * 1000) / 86400000 = gps_epoch_days + (S / secs_per_day + 7168)).
  { unfold gps_epoch_days, secs_per_day.
    symmetry; apply Z.div_unique with (X * 1000); [left; lia|].
    unfold X, secs_per_day; pose proof (Z.div_mod S (24*60*60)); lia. }
  assert (Hr : (10825 * 86400000 + S * 1000) mod 86400000 = X * 1000).
  { symmetry; apply Z.mod_unique with (10825 + S / secs_per_day); [left; lia|].
    unfold X, secs_per_day; pose proof (Z.div_mod S (24*60*60)); lia. }
  rewrite Hdays, Hr.
  destruct (civil_from_days _) as [[y m] d]; cbn [dt_year dt_month dt_day dt_hour dt_minute dt_second].
  replace (X * 1000 / 3600000) with (X / 3600)
    by (rewrite (Z.mul_comm X 1000); change 3600000 with (1000 * 3600); rewrite Z.div_mul_cancel_l; lia).
  replace (X * 1000 / 60000) with (X / 60)
    by (rewrite (Z.mul_comm X 1000); change 60000 with (1000 * 60); rewrite Z.div_mul_cancel_l; lia).
  replace (X * 1000 / 1000) with X by (rewrite Z.div_mul; lia).
  rewrite Z.mod_mul by lia; cbn [Z.eqb].
  rewrite div_min_mod by lia.
  rewrite sapp_nil_r; reflexivity.
Qed.

Lemma compute_GPS_time_iso_date_witness :
  compute_GPS_time_iso 176 (inject_Z 345600) =
  (let dt := to_date_time (176 + 1024) 345600 in
   let pad2 z := rightJustifyc (int_to_string z) 2 "0" in
   iso_date (dt_year dt) (dt_month dt) (dt_day dt) ++ "T" ++ pad2 (dt_hour dt)
   ++ pad2 (dt_minute dt) ++ pad2 (dt_second dt)).
Proof. apply compute_GPS_time_iso_date; [lia | lia | vm_compute; congruence]. Defined.

(** ** Names of the files: [createFilename] *)

Lemma int_to_string_inj (a b : Z) : int_to_string a = int_to_string b -> a = b.
Proof.
  unfold int_to_string; intros H.
  assert (E : NilEmpty.int_of_string (NilEmpty.string_of_int (Z.to_int a))
              = NilEmpty.int_of_string (NilEmpty.string_of_int (Z.to_int b))) by now rewrite H.
  rewrite !NilEmpty.isi in E; injection E as E.
  rewrite <- (DecimalZ.of_to a), <- (DecimalZ.of_to b), E; reflexivity.
Qed.

Lemma append_cancel_l (a b1 b2 : string) : a ++ b1 = a ++ b2 -> b1 = b2.
Proof. induction a as [|c a IH]; simpl; [auto | intros H; injection H; auto]. Qed.

Lemma append_split (a1 a2 b1 b2 : string) :
  String.length a1 = String.length a2 -> a1 ++ b1 = a2 ++ b2 -> a1 = a2 /\ b1 = b2.
Proof.
  revert a2; induction a1 as [|c a1 IH]; intros [|c' a2] Hl H; simpl in *;
    try discriminate; [auto|].
  injection H as -> H; injection Hl as Hl.
  destruct (IH a2 Hl H) as [-> ->]; auto.
Qed.

Lemma append_cancel_r (a1 a2 b : string) : a1 ++ b = a2 ++ b -> a1 = a2.
Proof.
  intros H.
  assert (Hl : String.length a1 = String.length a2).
  { apply (f_equal String.length) in H; rewrite !slen_app in H; lia. }
  exact (proj1 (append_split _ _ _ _ Hl H)).
Qed.

Lemma append_last (a b : string) (c d : ascii) :
  a ++ String c EmptyString = b ++ String d EmptyString -> c = d.
Proof.
  revert b; induction a as [|x a IH]; intros [|y b] H; simpl in *.
  - now injection H.
  - injection H as -> H; destruct b; discriminate.
  - injection H as <- H; destruct a; discriminate.
  - injection H as _ H; exact (IH b H).
Qed.

Lemma doy_tag_value (d : Z) : 1 <= d <= 999 -> digits_value (doy_tag d) = d.
Proof.
  intros Hd; apply Z.eqb_eq.
  apply (all_in_sound 1 999 (fun d => digits_value (doy_tag d) =? d));
    [vm_compute; reflexivity | lia].
Qed.

Lemma doy_tag_len (d : Z) : 1 <= d <= 999 -> String.length (doy_tag d) = 3%nat.
Proof.
  intros Hd; apply Nat.eqb_eq.
  apply (all_in_sound 1 999 (fun d => Nat.eqb (String.length (doy_tag d)) 3));
    [vm_compute; reflexivity | lia].
Qed.

Lemma min_tag_value (m : Z) : 0 <= m <= 99 -> digits_value (min_tag m) = m.
Proof.
  intros Hm; apply Z.eqb_eq.
  apply (all_in_sound 0 100 (fun m => digits_value (min_tag m) =? m));
    [vm_compute; reflexivity | lia].
Qed.

Lemma min_tag_len (m : Z) : 0 <= m <= 99 -> String.length (min_tag m) = 2%nat.
Proof.
  intros Hm; apply Nat.eqb_eq.
  apply (all_in_sound 0 100 (fun m => Nat.eqb (String.length (min_tag m)) 2));
    [vm_compute; reflexivity | lia].
Qed.

Lemma hour_tag_value (h : Z) :
  0 <= h <= 23 -> hour_of_tag (map_get Hmap_table (int_to_string h)) = h.
Proof.
  intros Hh; apply Z.eqb_eq.
  apply (all_in_sound 0 24 (fun h => hour_of_tag (map_get Hmap_table (int_to_string h)) =? h));
    [vm_compute; reflexivity | lia].
Qed.

Lemma hour_tag_len (h : Z) :
  0 <= h <= 23 -> String.length (map_get Hmap_table (int_to_string h)) = 1%nat.
Proof.
  intros Hh; apply Nat.eqb_eq.
  apply (all_in_sound 0 24
           (fun h => Nat.eqb (String.length (map_get Hmap_table (int_to_string h))) 1));
    [vm_compute; reflexivity | lia].
Qed.

(** X4: for one file type, the name [createFilename] builds determines the
    clock readings it was built from: day of the year (1 to 366), hour,
    minute and year. Two names of the same type taken at different minutes
    differ. *)
Theorem createFilename_readings_inj (type : string)
  (d1 h1 m1 y1 d2 h2 m2 y2 : Z) :
  1 <= d1 <= 366 -> 0 <= h1 <= 23 -> 0 <= m1 <= 59 ->
  1 <= d2 <= 366 -> 0 <= h2 <= 23 -> 0 <= m2 <= 59 ->
  createFilename d1 h1 m1 y1 type = createFilename d2 h2 m2 y2 type ->
  d1 = d2 /\ h1 = h2 /\ m1 = m2 /\ y1 = y2.
Proof.
  intros Hd1 Hh1 Hm1 Hd2 Hh2 Hm2 H.
  unfold createFilename in H; fold (doy_tag d1) (doy_tag d2) (min_tag m1) (min_tag m2) in H.
  apply append_cancel_l in H.
  apply append_split in H as [Ed H]; [|rewrite !doy_tag_len; lia].
  apply append_split in H as [Eh H]; [|rewrite !hour_tag_len; lia].
  apply append_split in H as [Em H]; [|rewrite !min_tag_len; lia].
  apply append_cancel_l in H; apply append_cancel_r in H.
  apply int_to_string_inj in H.
  apply (f_equal digits_value) in Ed; rewrite !doy_tag_value in Ed by lia.
  apply (f_equal hour_of_tag) in Eh; rewrite !hour_tag_value in Eh by lia.
  apply (f_equal digits_value) in Em; rewrite !min_tag_value in Em by lia.
  repeat split; lia.
Qed.

Lemma createFilename_readings_inj_witness :
  292 = 292 /\ 14 = 14 /\ 5 = 5 /\ 126 = 126.
Proof.
  apply (createFilename_readings_inj "RINEX_FILE_TYPE_OBS" 292 14 5 126 292 14 5 126);
    [lia | lia | lia | lia | lia | lia | reflexivity].
Defined.

Lemma createFilename_type_suffix (d h m y : Z) (t : string) :
  exists pre, createFilename d h m y t = pre ++ map_get fileType_table t.
Proof. unfold createFilename; rewrite !sapp_assoc; eexists; reflexivity. Qed.

Lemma fileType_letter (t : string) :
  In t (map fst fileType_table) -> exists c, map_get fileType_table t = String c EmptyString.
Proof.
  simpl; intros H; repeat (destruct H as [<-|H]; [eexists; reflexivity|]); contradiction.
Qed.

Lemma fileType_inj (t1 t2 : string) :
  In t1 (map fst fileType_table) -> In t2 (map fst fileType_table) ->
  map_get fileType_table t1 = map_get fileType_table t2 -> t1 = t2.
Proof.
  simpl; intros H1 H2 E.
  repeat (destruct H1 as [<-|H1]); try contradiction;
  repeat (destruct H2 as [<-|H2]); try contradiction;
  first [reflexivity | vm_compute in E; discriminate].
Qed.

(** X5: the names of two different file types of the [fileType] map differ,
    whatever the clock reads at each of the two calls; in particular the
    three files the constructor opens (types GPS_NAV, OBS and SBAS) have
    three different names. *)
Theorem createFilename_types_differ (t1 t2 : string) (d1 h1 m1 y1 d2 h2 m2 y2 : Z) :
  In t1 (map fst fileType_table) -> In t2 (map fst fileType_table) -> t1 <> t2 ->
  createFilename d1 h1 m1 y1 t1 <> createFilename d2 h2 m2 y2 t2.
Proof.
  intros H1 H2 Hne H.
  destruct (createFilename_type_suffix d1 h1 m1 y1 t1) as [pre1 E1].
  destruct (createFilename_type_suffix d2 h2 m2 y2 t2) as [pre2 E2].
  destruct (fileType_letter t1 H1) as [c1 L1].
  destruct (fileType_letter t2 H2) as [c2 L2].
  rewrite E1, E2, L1, L2 in H.
  apply append_last in H; subst c2.
  apply Hne, fileType_inj; [exact H1 | exact H2 | congruence].
Qed.

Lemma createFilename_types_differ_witness :
  createFilename 292 14 5 126 "RINEX_FILE_TYPE_GPS_NAV"
  <> createFilename 292 14 6 126 "RINEX_FILE_TYPE_SBAS".
Proof.
  apply createFilename_types_differ;
    [repeat (first [left; reflexivity | right]) | repeat (first [left; reflexivity | right])
    | discriminate].
Defined.

(** ** Files of a printer session *)

Lemma fs_lookup_open_app (fs : filesys) (n m : string) :
  fs_lookup (fs_open_app fs n) m =
  if String.eqb m n then Some (fs_size fs n) else fs_lookup fs m.
Proof.
  unfold fs_open_app, fs_size.
  destruct (String.eqb_spec m n) as [->|Hne].
  - destruct (fs_lookup fs n) eqn:E; [exact E|].
    induction fs as [|[n' k] fs IH]; simpl in *; [now rewrite String.eqb_refl|].
    destruct (String.eqb n n'); [discriminate | exact (IH E)].
  - destruct (fs_lookup fs n) eqn:E; [reflexivity|].
    clear E; induction fs as [|[n' k] fs IH]; simpl.
    + apply String.eqb_neq in Hne; now rewrite Hne.
    + destruct (String.eqb m n'); [reflexivity | exact IH].
Qed.

Lemma fs_lookup_grow (fs : filesys) (n m : string) (k : nat) :
  fs_lookup (fs_grow fs n k) m =
  if String.eqb m n then option_map (fun s => (s + k)%nat) (fs_lookup fs m)
  else fs_lookup fs m.
Proof.
  induction fs as [|[n' s] fs IH]; simpl; [now destruct (String.eqb m n)|].
  destruct (String.eqb_spec n n') as [<-|Hnn]; simpl.
  - destruct (String.eqb m n); reflexivity.
  - rewrite IH; destruct (String.eqb_spec m n) as [->|Hmn].
    + apply String.eqb_neq in Hnn; now rewrite Hnn.
    + reflexivity.
Qed.

Lemma fs_lookup_remove (fs : filesys) (n m : string) :
  fs_lookup (fs_remove fs n) m = if String.eqb m n then None else fs_lookup fs m.
Proof.
  unfold fs_remove; induction fs as [|[n' s] fs IH]; [now destruct (String.eqb m n)|].
  cbn [filter fst]; destruct (String.eqb_spec n' n) as [->|Hne]; cbn [negb fs_lookup].
  - rewrite IH; destruct (String.eqb m n); reflexivity.
  - rewrite IH; destruct (String.eqb_spec m n') as [->|Hmn].
    + apply String.eqb_neq in Hne; now rewrite Hne.
    + reflexivity.
Qed.

Lemma printer_writes_spec (ops : list (which_stream * list string)) :
  forall (p : Rinex_Printer) (fs : filesys),
  let a := of_name (navFile p) in
  let b := of_name (obsFile p) in
  let c := of_name (sbsFile p) in
  navfilename (fst (printer_writes p fs ops)) = navfilename p /\
  obsfilename (fst (printer_writes p fs ops)) = obsfilename p /\
  sbsfilename (fst (printer_writes p fs ops)) = sbsfilename p /\
  navFile (fst (printer_writes p fs ops)) = mk_ofstream a (of_pos (navFile p) + bytes_through NavS ops) /\
  obsFile (fst (printer_writes p fs ops)) = mk_ofstream b (of_pos (obsFile p) + bytes_through ObsS ops) /\
  sbsFile (fst (printer_writes p fs ops)) = mk_ofstream c (of_pos (sbsFile p) + bytes_through SbsS ops) /\
  forall m, fs_lookup (snd (printer_writes p fs ops)) m =
    option_map (fun s => s + ((if String.eqb m a then bytes_through NavS ops else 0)
                              + (if String.eqb m b then bytes_through ObsS ops else 0)
                              + (if String.eqb m c then bytes_through SbsS ops else 0)))%nat
      (fs_lookup fs m).
Proof.
  induction ops as [|[w ls] ops IH]; intros p fs a b c.
  - cbn [printer_writes fst snd bytes_through].
    rewrite !Nat.add_0_r; unfold a, b, c.
    destruct (navFile p), (obsFile p), (sbsFile p); simpl.
    repeat split; [].
    intros m; destruct (fs_lookup fs m); cbn [option_map]; [|reflexivity].
    f_equal; repeat (destruct (String.eqb _ _)); lia.
  - destruct w; cbn [printer_writes printer_write write_lines bytes_through stream_eqb];
      match goal with |- context [printer_writes ?p' ?fs' ops] =>
        destruct (IH p' fs') as (E1 & E2 & E3 & E4 & E5 & E6 & E7) end;
      simpl in E1, E2, E3, E4, E5, E6, E7 |- *;
      rewrite E1, E2, E3, E4, E5, E6;
      (split; [reflexivity|]); (split; [reflexivity|]); (split; [reflexivity|]);
      (split; [f_equal; lia|]); (split; [f_equal; lia|]); (split; [f_equal; lia|]);
      intros m; rewrite E7, fs_lookup_grow; fold a b c;
      repeat (destruct (String.eqb _ _)); destruct (fs_lookup fs m); cbn [option_map];
      try reflexivity; f_equal; lia.
Qed.

Lemma ctor_streams (fs : filesys) (navn obsn sbsn flag : string) :
  let p := fst (fst (Rinex_Printer_ctor fs navn obsn sbsn flag)) in
  navFile p = mk_ofstream navn (fs_size fs navn) /\
  obsFile p = mk_ofstream obsn (fs_size (fs_open_app fs navn) obsn) /\
  sbsFile p = mk_ofstream sbsn (fs_size (fs_open_app (fs_open_app fs navn) obsn) sbsn) /\
  navfilename p = navn /\ obsfilename p = obsn /\ sbsfilename p = sbsn /\
  snd (fst (Rinex_Printer_ctor fs navn obsn sbsn flag))
  = fs_open_app (fs_open_app (fs_open_app fs navn) obsn) sbsn.
Proof.
  unfold Rinex_Printer_ctor.
  destruct (String.eqb flag "3.01"), (String.eqb flag "2.11"), (String.eqb flag "2.10");
    repeat split.
Qed.

(** X6: a printer whose three file names differ, after any sequence of
    writes through its streams and its destruction: the navigation file and
    the observation file each hold their size before construction (0 for a
    file that did not exist) plus the bytes written through their stream,
    and exist exactly when that total is not 0: a file that ends up empty is
    removed, a file that already held data is kept even when nothing is
    written to it. A file of the directory with another name is left as it
    was. *)
Theorem printer_session_files (fs : filesys) (navn obsn sbsn flag : string)
  (ops : list (which_stream * list string)) :
  navn <> obsn -> navn <> sbsn -> obsn <> sbsn ->
  let p := fst (fst (Rinex_Printer_ctor fs navn obsn sbsn flag)) in
  let fs1 := snd (fst (Rinex_Printer_ctor fs navn obsn sbsn flag)) in
  let fs3 := Rinex_Printer_dtor (fst (printer_writes p fs1 ops))
                                (snd (printer_writes p fs1 ops)) in
  fs_lookup fs3 navn = (if Nat.eqb (fs_size fs navn + bytes_through NavS ops) 0 then None
                        else Some (fs_size fs navn + bytes_through NavS ops)%nat) /\
  fs_lookup fs3 obsn = (if Nat.eqb (fs_size fs obsn + bytes_through ObsS ops) 0 then None
                        else Some (fs_size fs obsn + bytes_through ObsS ops)%nat) /\
  (forall m, m <> navn -> m <> obsn -> m <> sbsn -> fs_lookup fs3 m = fs_lookup fs m).
Proof.
  intros Hno Hns Hos p fs1 fs3.
  destruct (ctor_streams fs navn obsn sbsn flag) as (Pn & Po & Ps & Fn & Fo & Fs & F1).
  fold p in Pn, Po, Ps, Fn, Fo, Fs; fold fs1 in F1.
  destruct (printer_writes_spec ops p fs1) as (E1 & E2 & E3 & E4 & E5 & E6 & E7).
  rewrite Pn, Po, Ps in *; cbn [of_name of_pos] in *.
  unfold fs3, Rinex_Printer_dtor; rewrite E1, E2, E3, E4, E5, Fn, Fo, Fs; simpl of_pos.
  apply String.eqb_neq in Hno, Hns, Hos.
  assert (Hon : String.eqb obsn navn = false) by (rewrite String.eqb_sym; exact Hno).
  assert (Hsn : String.eqb sbsn navn = false) by (rewrite String.eqb_sym; exact Hns).
  assert (Hso : String.eqb sbsn obsn = false) by (rewrite String.eqb_sym; exact Hos).
  assert (L : forall m, fs_lookup fs1 m =
            if String.eqb m sbsn then Some (fs_size (fs_open_app (fs_open_app fs navn) obsn) sbsn)
            else if String.eqb m obsn then Some (fs_size (fs_open_app fs navn) obsn)
            else if String.eqb m navn then Some (fs_size fs navn)
            else fs_lookup fs m).
  { intros m; rewrite F1, !fs_lookup_open_app; reflexivity. }
  assert (So : fs_size (fs_open_app fs navn) obsn = fs_size fs obsn)
    by (unfold fs_size at 1; rewrite fs_lookup_open_app, Hon; reflexivity).
  rewrite So in *.
  destruct (fs_size fs navn + bytes_through NavS ops =? 0)%nat eqn:Bn;
    destruct (fs_size fs obsn + bytes_through ObsS ops =? 0)%nat eqn:Bo;
    (split; [|split]); try (intros m Hmn Hmo Hms; apply String.eqb_neq in Hmn, Hmo, Hms);
    rewrite ?fs_lookup_remove, ?String.eqb_refl, ?Hno, ?Hns, ?Hon, ?Hos, ?Hmn, ?Hmo, ?Hms;
    try reflexivity;
    rewrite E7, L, ?String.eqb_refl, ?Hno, ?Hns, ?Hon, ?Hos, ?Hmn, ?Hmo, ?Hms;
    try (destruct (fs_lookup fs m); cbn [option_map]; [f_equal; lia | reflexivity]);
    try (unfold fs_size at 1; rewrite fs_lookup_open_app, Hon);
    cbn [option_map]; unfold fs_size; f_equal; lia.
Qed.

Lemma printer_session_files_witness :
  let p := fst (fst (Rinex_Printer_ctor [("obs.obs", 7%nat); ("old.obs", 3%nat)]
                       "nav.nav" "obs.obs" "sbs.sbs" "2.11")) in
  let fs1 := snd (fst (Rinex_Printer_ctor [("obs.obs", 7%nat); ("old.obs", 3%nat)]
                         "nav.nav" "obs.obs" "sbs.sbs" "2.11")) in
  let fs3 := Rinex_Printer_dtor (fst (printer_writes p fs1 [(NavS, ["x"])]))
                                (snd (printer_writes p fs1 [(NavS, ["x"])])) in
  fs_lookup fs3 "nav.nav" =
    (if Nat.eqb (fs_size [("obs.obs", 7%nat); ("old.obs", 3%nat)] "nav.nav" + bytes_through NavS [(NavS, ["x"])]) 0 then None
     else Some (fs_size [("obs.obs", 7%nat); ("old.obs", 3%nat)] "nav.nav" + bytes_through NavS [(NavS, ["x"])])%nat) /\
  fs_lookup fs3 "obs.obs" =
    (if Nat.eqb (fs_size [("obs.obs", 7%nat); ("old.obs", 3%nat)] "obs.obs" + bytes_through ObsS [(NavS, ["x"])]) 0 then None
     else Some (fs_size [("obs.obs", 7%nat); ("old.obs", 3%nat)] "obs.obs" + bytes_through ObsS [(NavS, ["x"])])%nat) /\
  (forall m, m <> "nav.nav" -> m <> "obs.obs" -> m <> "sbs.sbs" ->
   fs_lookup fs3 m = fs_lookup [("obs.obs", 7%nat); ("old.obs", 3%nat)] m).
Proof.
  apply (printer_session_files [("obs.obs", 7%nat); ("old.obs", 3%nat)]
           "nav.nav" "obs.obs" "sbs.sbs" "2.11" [(NavS, ["x"])]); discriminate.
Defined.

(** ** Properties of the writers *)

Lemma hex2_decode (b : Byte.byte) : hex_decode (hex2 b) = Some b.
Proof. destruct b; reflexivity. Qed.

Lemma hex2_len (b : Byte.byte) : String.length (hex2 b) = 2%nat.
Proof. destruct b; reflexivity. Qed.

Lemma hex_bytes_cons (b : Byte.byte) (bs : list Byte.byte) :
  hex_bytes (b :: bs) = hex2 b ++ " " ++ hex_bytes bs.
Proof.
  unfold hex_bytes; cbn [map]; destruct bs as [|b' bs]; cbn [map String.concat].
  - now rewrite sapp_nil_r.
  - now rewrite <- sapp_assoc.
Qed.

Lemma hex_bytes_inj (l1 l2 : list Byte.byte) : hex_bytes l1 = hex_bytes l2 -> l1 = l2.
Proof.
  revert l2; induction l1 as [|b1 l1 IH]; intros [|b2 l2] H.
  - reflexivity.
  - apply (f_equal String.length) in H; rewrite !hex_bytes_len in H; simpl in H; discriminate.
  - apply (f_equal String.length) in H; rewrite !hex_bytes_len in H; simpl in H; discriminate.
  - rewrite !hex_bytes_cons in H.
    apply append_split in H as [E H]; [|rewrite !hex2_len; reflexivity].
    apply append_cancel_l in H.
    apply (f_equal hex_decode) in E; rewrite !hex2_decode in E; injection E as ->.
    now rewrite (IH l2 H).
Qed.

Lemma firstn_36 {A : Type} (l : list A) : firstn 36 l = app (firstn 18 l) (firstn 18 (skipn 18 l)).
Proof.
  do 18 (destruct l as [|? l]; [reflexivity|]); reflexivity.
Qed.

(** X7: the two data lines of an SBAS record carry the first 36 bytes of the
    message and nothing else of it: for two messages of the same type, the
    data lines [log_rinex_sbs] writes coincide exactly when the first 36
    bytes of the messages do. Bytes after the 36th are never written. *)
Theorem log_rinex_sbs_payload asString asFixWidthString (m1 m2 : Sbas_Raw_Msg) :
  get_msg_type m1 = get_msg_type m2 ->
  (skipn 1 (lines_of (log_rinex_sbs asString asFixWidthString m1))
   = skipn 1 (lines_of (log_rinex_sbs asString asFixWidthString m2))
   <-> firstn 36 (get_msg m1) = firstn 36 (get_msg m2)).
Proof.
  intros Ht; unfold log_rinex_sbs, lines_of; cbn [map snd]; rewrite !skipn_cons, !skipn_O, Ht.
  split.
  - intros H.
    pose proof (f_equal (@hd string "") H) as H2.
    pose proof (f_equal (fun l => hd "" (tl l)) H) as H3.
    cbn [hd tl] in H2, H3.
    do 4 apply append_cancel_l in H2; apply append_cancel_r, hex_bytes_inj in H2.
    apply append_cancel_l, append_cancel_r, hex_bytes_inj in H3.
    now rewrite !firstn_36, H2, H3.
  - intros H.
    assert (E1 : forall l : list Byte.byte, firstn 18 l = firstn 18 (firstn 36 l))
      by (intros l; rewrite firstn_firstn; reflexivity).
    assert (E2 : forall l : list Byte.byte,
               firstn 18 (skipn 18 l) = skipn 18 (firstn 36 l))
      by (intros l; rewrite skipn_firstn_comm; reflexivity).
    rewrite (E1 (get_msg m1)), (E1 (get_msg m2)), (E2 (get_msg m1)), (E2 (get_msg m2)), H.
    reflexivity.
Qed.

Lemma log_rinex_sbs_payload_witness :
  skipn 1 (lines_of (log_rinex_sbs asString_fixed sample_asFixWidthString (sample_sbas 36)))
  = skipn 1 (lines_of (log_rinex_sbs asString_fixed sample_asFixWidthString (sample_sbas 40)))
  <-> firstn 36 (get_msg (sample_sbas 36)) = firstn 36 (get_msg (sample_sbas 40)).
Proof. apply log_rinex_sbs_payload; reflexivity. Defined.

Lemma compute_GPS_time_iso_rollover (week : Z) (t : Q) :
  0 <= week -> compute_GPS_time_iso (week + 1024) t = compute_GPS_time_iso week t.
Proof.
  intros Hw; unfold compute_GPS_time_iso.
  rewrite !Z.rem_mod_nonneg by lia.
  rewrite Z.add_mod, Z.mod_same, Z.add_0_r, Z.mod_mod by lia; reflexivity.
Qed.

(** X9: the observation writer cannot tell GPS weeks 1024 apart: with the
    timestamps of [compute_GPS_time], the epoch lines [log_rinex_obs] writes,
    and the header [rinex_obs_header] writes, are the same for an ephemeris of
    week [w + 1024] as for one of week [w] (for [w >= 0]). *)
Theorem obs_week_rollover asString (p : Rinex_Printer) (c : Clock) (user : string)
  (e1 e2 : Gps_Ephemeris) (t t0 : Q) (ps : list (Z * Gnss_Synchro)) :
  0 <= i_GPS_week e1 -> i_GPS_week e2 = i_GPS_week e1 + 1024 ->
  log_rinex_obs asString compute_GPS_time_iso p e2 t ps
  = log_rinex_obs asString compute_GPS_time_iso p e1 t ps /\
  rinex_obs_header asString compute_GPS_time_iso p c user e2 t0
  = rinex_obs_header asString compute_GPS_time_iso p c user e1 t0.
Proof.
  intros Hw He; unfold log_rinex_obs, rinex_obs_header.
  rewrite He, !compute_GPS_time_iso_rollover by exact Hw; split; reflexivity.
Qed.

Lemma obs_week_rollover_witness :
  log_rinex_obs asString_fixed compute_GPS_time_iso (fst (fst (Rinex_Printer_ctor [] "nav.nav" "obs.obs" "sbs.sbs" "2.11"))) (mk_eph 5 (3456789 # 10) 0 0 0 0 0 0 0 0 0 0 0 0 0 0 0 0 0 0 0 1 1124 0 0 0 496 [(5, "IIR")]) 100 [(3, sample_sync)]
  = log_rinex_obs asString_fixed compute_GPS_time_iso (fst (fst (Rinex_Printer_ctor [] "nav.nav" "obs.obs" "sbs.sbs" "2.11"))) sample_eph 100 [(3, sample_sync)] /\
  rinex_obs_header asString_fixed compute_GPS_time_iso (fst (fst (Rinex_Printer_ctor [] "nav.nav" "obs.obs" "sbs.sbs" "2.11"))) sample_clock "user" (mk_eph 5 (3456789 # 10) 0 0 0 0 0 0 0 0 0 0 0 0 0 0 0 0 0 0 0 1 1124 0 0 0 496 [(5, "IIR")]) 100
  = rinex_obs_header asString_fixed compute_GPS_time_iso (fst (fst (Rinex_Printer_ctor [] "nav.nav" "obs.obs" "sbs.sbs" "2.11"))) sample_clock "user" sample_eph 100.
Proof. apply obs_week_rollover; [vm_compute; congruence | reflexivity]. Defined.

(** X10: writing a map of ephemerides in one call of [log_rinex_nav] writes
    the same lines as writing a first part of it and then the rest in a
    second call: each record starts from an empty line. *)
Theorem log_rinex_nav_app doub2for gps_iso_time (p : Rinex_Printer)
  (m1 m2 : list (Z * Gps_Ephemeris)) :
  log_rinex_nav doub2for gps_iso_time p (app m1 m2)
  = app (log_rinex_nav doub2for gps_iso_time p m1) (log_rinex_nav doub2for gps_iso_time p m2).
Proof.
  unfold log_rinex_nav; induction m1 as [|[k e] m1 IH]; [reflexivity|].
  cbn [app nav_loop].
  pose proof (nav_record_line_out doub2for gps_iso_time p "" e) as Hout.
  destruct (nav_record doub2for gps_iso_time p "" e) as [es line']; cbn [snd] in Hout; subst line'.
  rewrite IH, app_assoc; reflexivity.
Qed.

(** X11: a stronger signal never gets a lower signal-strength indicator:
    where both are defined, [signalStrength] is monotone. *)
Theorem signalStrength_monotone (a b : Q) (va vb : Z) :
  (a <= b)%Q -> signalStrength a = Some va -> signalStrength b = Some vb -> va <= vb.
Proof.
  unfold signalStrength, double_to_int; intros Hab Ha Hb.
  assert (Hf : Qfloor (a / 6) <= Qfloor (b / 6)).
  { apply Qfloor_resp_le. apply Qmult_le_compat_r; [exact Hab|]. unfold Qle; simpl; lia. }
  revert Ha Hb Hf; generalize (Qfloor (a / 6)) (Qfloor (b / 6)); intros fa fb Ha Hb Hf.
  destruct (_ && _) in Ha; [|discriminate]; destruct (_ && _) in Hb; [|discriminate].
  injection Ha as <-; injection Hb as <-; lia.
Qed.

Lemma signalStrength_monotone_witness : 5 <= 9.
Proof.
  apply (signalStrength_monotone 30 54 5 9);
    [unfold Qle; simpl; lia | vm_compute; reflexivity | vm_compute; reflexivity].
Defined.

